(** * Audit-query ETL: a shallow embedding of
      [etl_create_json_from_webservice.py]

    The script has three functions:
    - [ler_inscricoes_xls] turns one spreadsheet column into a list of
      registration numbers;
    - [consultar_auditoria] performs one GET and turns whatever happens
      into a tagged dictionary;
    - [consultar_varias_inscricoes] queries every registration number in
      turn and collects one entry per number.

    Python values are embedded as follows.  [str] is [string]; a character
    is a code point below 256.  [int] is [Z].  A [dict] is an association
    list in insertion order.  A call that can raise returns a [Result].
    An exception object is the record of the [isinstance] answers that the
    [except] clauses of the script ask for, together with its [str()].
    The [print] calls of the script are not modelled. *)

From Stdlib Require Import ZArith String Ascii List Bool Lia DecimalString.
Import ListNotations.
Local Open Scope list_scope.
Local Open Scope string_scope.

(** ** Python values and the operations the script applies to them *)

Module Py.

(** A decoded JSON document, as [json.loads] builds it. *)
#[warnings="-register-all"]
Inductive json : Type :=
| JNull
| JBool (b : bool)
| JInt (z : Z)
| JFloat (literal : string)
| JStr (s : string)
| JList (items : list json)
| JDict (fields : list (string * json)).

(** The exceptions that can leave a function of the script. *)
Record Exc : Type := mkExc {
  is_Timeout : bool;
  is_HTTPError : bool;
  is_ConnectionError : bool;
  is_RequestException : bool;
  is_JSONDecodeError : bool;
  exc_str : string
}.

Inductive Raised : Type :=
| Uncaught (e : Exc)
| AttributeError
| TypeError
| ValueError (msg : string).

Inductive Result (A : Type) : Type :=
| Return (a : A)
| Raise (x : Raised).
Arguments Return {A} a.
Arguments Raise {A} x.

Definition bind {A B : Type} (m : Result A) (k : A -> Result B) : Result B :=
  match m with
  | Return a => k a
  | Raise x => Raise x
  end.

(** [str(n)] for an [int]. *)
Definition str_int (z : Z) : string := NilZero.string_of_int (Z.to_int z).

(** [sep.join(parts)] *)
Fixpoint join (sep : string) (parts : list string) : string :=
  match parts with
  | [] => ""
  | [p] => p
  | p :: rest => p ++ sep ++ join sep rest
  end.

(** [c.isspace()] on the code points below 256. *)
Definition isspace (c : ascii) : bool :=
  let n := nat_of_ascii c in
  (((9 <=? n) && (n <=? 13)) || ((28 <=? n) && (n <=? 32))
   || (n =? 133) || (n =? 160))%nat.

Fixpoint lstrip (s : string) : string :=
  match s with
  | EmptyString => EmptyString
  | String c rest => if isspace c then lstrip rest else s
  end.

Fixpoint rstrip (s : string) : string :=
  match s with
  | EmptyString => EmptyString
  | String c rest =>
      match rstrip rest with
      | EmptyString => if isspace c then EmptyString else String c EmptyString
      | kept => String c kept
      end
  end.

(** [s.strip()] *)
Definition strip (s : string) : string := rstrip (lstrip s).

Definition lower_char (c : ascii) : ascii :=
  let n := nat_of_ascii c in
  if (((65 <=? n) && (n <=? 90))
      || ((192 <=? n) && (n <=? 222) && negb (n =? 215)))%nat
  then ascii_of_nat (n + 32) else c.

(** [s.lower()] *)
Fixpoint lower (s : string) : string :=
  match s with
  | EmptyString => EmptyString
  | String c rest => String (lower_char c) (lower rest)
  end.

(** [sub in s] for two strings. *)
Definition str_contains (sub s : string) : bool :=
  match index 0 sub s with
  | Some _ => true
  | None => false
  end.

Definition is_str (k : string) (v : json) : bool :=
  match v with
  | JStr s => String.eqb s k
  | _ => false
  end.

Fixpoint has_key (k : string) (fields : list (string * json)) : bool :=
  match fields with
  | [] => false
  | (k', _) :: rest => String.eqb k' k || has_key k rest
  end.

Fixpoint get_item (k : string) (fields : list (string * json)) : option json :=
  match fields with
  | [] => None
  | (k', v) :: rest => if String.eqb k' k then Some v else get_item k rest
  end.

(** [d[k] = v]: an existing key keeps its place, a new key goes last. *)
Fixpoint set_item (k : string) (v : json) (fields : list (string * json))
  : list (string * json) :=
  match fields with
  | [] => [(k, v)]
  | (k', v') :: rest =>
      if String.eqb k' k then (k', v) :: rest
      else (k', v') :: set_item k v rest
  end.

(** [k in x], with [k] a string: keys of a dict, elements of a list,
    substrings of a string; the other values are not containers. *)
Definition py_in (k : string) (x : json) : Result bool :=
  match x with
  | JDict fields => Return (has_key k fields)
  | JList items => Return (existsb (is_str k) items)
  | JStr s => Return (str_contains k s)
  | JNull | JBool _ | JInt _ | JFloat _ => Raise TypeError
  end.

(** [x[k] = v], with [k] a string: only a dict accepts it. *)
Definition py_setitem (x : json) (k : string) (v : json) : Result json :=
  match x with
  | JDict fields => Return (JDict (set_item k v fields))
  | _ => Raise TypeError
  end.

End Py.
Import Py.

Notation "x <- m ;; k" := (bind m (fun x => k))
  (at level 61, m at next level, right associativity).

(** ** The [requests] library, as far as the script uses it *)

Module Requests.

(** A response object.  [resp_json] is what [.json()] does: it returns
    the decoded body or raises.  [http_error_msg] is the text of the
    [HTTPError] that [raise_for_status] builds for this response. *)
Record Response : Type := mkResponse {
  status_code : Z;
  text : string;
  resp_json : json + Exc;
  http_error_msg : string
}.

(** What [requests.get(url, timeout=30)] does. *)
Inductive Attempt : Type :=
| GetRaises (e : Exc)
| GetReturns (r : Response).

(** [HTTPError] derives from [RequestException] only. *)
Definition HTTPError (msg : string) : Exc :=
  {| is_Timeout := false; is_HTTPError := true; is_ConnectionError := false;
     is_RequestException := true; is_JSONDecodeError := false;
     exc_str := msg |}.

(** [r.raise_for_status()]: "Raises an HTTPError for bad status codes
    (4xx or 5xx)". *)
Definition raise_for_status (r : Response) : option Exc :=
  if ((400 <=? status_code r) && (status_code r <? 600))%Z
  then Some (HTTPError (http_error_msg r))
  else None.

End Requests.
Import Requests.

(** Some classes of [requests.exceptions] and of [json], each with the
    bases that the [except] clauses of the script test.  Since requests
    2.27 the error of [.json()] is [requests.exceptions.JSONDecodeError],
    which derives from [RequestException] (through [InvalidJSONError]) and
    from [json.JSONDecodeError]. *)
Module Exceptions.

Definition ConnectTimeout (msg : string) : Exc :=
  {| is_Timeout := true; is_HTTPError := false; is_ConnectionError := true;
     is_RequestException := true; is_JSONDecodeError := false;
     exc_str := msg |}.

Definition ReadTimeout (msg : string) : Exc :=
  {| is_Timeout := true; is_HTTPError := false; is_ConnectionError := false;
     is_RequestException := true; is_JSONDecodeError := false;
     exc_str := msg |}.

Definition ConnectionError (msg : string) : Exc :=
  {| is_Timeout := false; is_HTTPError := false; is_ConnectionError := true;
     is_RequestException := true; is_JSONDecodeError := false;
     exc_str := msg |}.

Definition TooManyRedirects (msg : string) : Exc :=
  {| is_Timeout := false; is_HTTPError := false; is_ConnectionError := false;
     is_RequestException := true; is_JSONDecodeError := false;
     exc_str := msg |}.

Definition RequestsJSONDecodeError (msg : string) : Exc :=
  {| is_Timeout := false; is_HTTPError := false; is_ConnectionError := false;
     is_RequestException := true; is_JSONDecodeError := true;
     exc_str := msg |}.

Definition JSONDecodeError (msg : string) : Exc :=
  {| is_Timeout := false; is_HTTPError := false; is_ConnectionError := false;
     is_RequestException := false; is_JSONDecodeError := true;
     exc_str := msg |}.

Definition KeyError (msg : string) : Exc :=
  {| is_Timeout := false; is_HTTPError := false; is_ConnectionError := false;
     is_RequestException := false; is_JSONDecodeError := false;
     exc_str := msg |}.

Definition OSError (msg : string) : Exc :=
  {| is_Timeout := false; is_HTTPError := false; is_ConnectionError := false;
     is_RequestException := false; is_JSONDecodeError := false;
     exc_str := msg |}.

End Exceptions.

(** ** [consultar_auditoria] *)

(** The dictionary that the function returns:
    [{"status": "success", "data": ...}] or
    [{"status": "failed", "error": ...}], the latter with or without the
    key ["raw_response"]. *)
Inductive QueryResult : Type :=
| Success (data : json)
| Failed (error : string) (raw_response : option string).

Definition url_prefix : string :=
  "https://sistemas.sefaz.go.gov.br/gre-service/v1/relatorio/consulta-publica-auditorias/0/".

Definition url (numero_inscricao : string) : string :=
  url_prefix ++ numero_inscricao.

(** An exception that leaves the [try] body: the exception [e], its
    attribute [e.response], and the local [resposta] when the assignment
    on the first line of the body took place. *)
Record Escaped : Type := mkEscaped {
  raised : Exc;
  e_response : option Response;
  resposta : option Response
}.

(** The [try] body: [get], then [raise_for_status], then [.json()]. *)
Definition try_body (get : string -> Attempt) (numero_inscricao : string)
  : json + Escaped :=
  match get (url numero_inscricao) with
  | GetRaises e => inr (mkEscaped e None None)
  | GetReturns r =>
      match raise_for_status r with
      | Some e => inr (mkEscaped e (Some r) (Some r))
      | None =>
          match resp_json r with
          | inl data => inl data
          | inr e => inr (mkEscaped e None (Some r))
          end
      end
  end.

(** The six [except] clauses, named in the order of the source. *)
Inductive Handler : Type :=
| ExceptTimeout
| ExceptHTTPError
| ExceptConnectionError
| ExceptRequestException
| ExceptJSONDecodeError
| ExceptException.

(** Python runs the first clause whose class the exception belongs to. *)
Definition handler_of (e : Exc) : Handler :=
  if is_Timeout e then ExceptTimeout
  else if is_HTTPError e then ExceptHTTPError
  else if is_ConnectionError e then ExceptConnectionError
  else if is_RequestException e then ExceptRequestException
  else if is_JSONDecodeError e then ExceptJSONDecodeError
  else ExceptException.

Section Consulta.

(** [json.dumps(_, ensure_ascii=False)] *)
Variable dumps : json -> string.

(** The body of each clause. *)
Definition run_handler (h : Handler) (numero_inscricao : string) (x : Escaped)
  : Result QueryResult :=
  let e := raised x in
  match h with
  | ExceptTimeout =>
      Return (Failed ("Timeout exceeded while querying registration "
                      ++ numero_inscricao ++ ".") None)
  | ExceptHTTPError =>
      match e_response x with
      | None => Raise AttributeError
      | Some response =>
          let error_msg :=
            "HTTP Error for registration " ++ numero_inscricao ++ ": "
            ++ exc_str e ++ ". Status: " ++ str_int (status_code response) in
          match resp_json response with
          | inl error_details =>
              Return (Failed (error_msg ++ ". Details: " ++ dumps error_details)
                             (Some (text response)))
          | inr e' =>
              if is_JSONDecodeError e'
              then Return (Failed (error_msg ++ ". Raw response: "
                                   ++ text response)
                                  (Some (text response)))
              else Raise (Uncaught e')
          end
      end
  | ExceptConnectionError =>
      Return (Failed ("Connection error for registration " ++ numero_inscricao
                      ++ ": " ++ exc_str e
                      ++ ". Check your internet or the webservice server.")
                     None)
  | ExceptRequestException =>
      Return (Failed ("Request error for registration " ++ numero_inscricao
                      ++ ": " ++ exc_str e ++ ".") None)
  | ExceptJSONDecodeError =>
      let raw_response :=
        match resposta x with
        | Some r => text r
        | None => "N/A"
        end in
      Return (Failed ("Error decoding JSON for registration "
                      ++ numero_inscricao ++ ": " ++ exc_str e ++ ".")
                     (Some raw_response))
  | ExceptException =>
      Return (Failed ("Unexpected error for registration " ++ numero_inscricao
                      ++ ": " ++ exc_str e ++ ".") None)
  end.

Definition consultar_auditoria (get : string -> Attempt)
  (numero_inscricao : string) : Result QueryResult :=
  match try_body get numero_inscricao with
  | inl data => Return (Success data)
  | inr x => run_handler (handler_of (raised x)) numero_inscricao x
  end.

(** *** The classification of the specification

    Section 4.2 of the specification lists five failure classes and the
    order in which they are tried: timeout, connection failure, HTTP
    status, JSON decoding, anything else. *)
Inductive FailureClass : Type :=
| TimeoutClass
| ConnectionClass
| HttpStatusClass
| JsonDecodeClass
| CatchAllClass.

Definition spec_class (e : Exc) : FailureClass :=
  if is_Timeout e then TimeoutClass
  else if is_ConnectionError e then ConnectionClass
  else if is_HTTPError e then HttpStatusClass
  else if is_JSONDecodeError e then JsonDecodeClass
  else CatchAllClass.

(** The class of the specification that each clause of the source
    answers for.  The fifth class is a generic message with the
    registration number and the cause: the clause for [RequestException]
    and the clause for [Exception] both write one. *)
Definition class_of_handler (h : Handler) : FailureClass :=
  match h with
  | ExceptTimeout => TimeoutClass
  | ExceptHTTPError => HttpStatusClass
  | ExceptConnectionError => ConnectionClass
  | ExceptRequestException => CatchAllClass
  | ExceptJSONDecodeError => JsonDecodeClass
  | ExceptException => CatchAllClass
  end.

End Consulta.

(** What the library has to guarantee for no exception to leave
    [consultar_auditoria]: an [HTTPError] is raised by [raise_for_status]
    only (so it carries its response), and a body that [.json()] cannot
    decode raises a [json.JSONDecodeError]. *)
Definition not_to_http_clause (e : Exc) : bool :=
  is_Timeout e || negb (is_HTTPError e).

Definition library_ok (a : Attempt) : bool :=
  match a with
  | GetRaises e => not_to_http_clause e
  | GetReturns r =>
      match resp_json r with
      | inl _ => true
      | inr e' => is_JSONDecodeError e' && not_to_http_clause e'
      end
  end.

(** ** [ler_inscricoes_xls] *)

(** A cell of the sheet read with [dtype=str]: a string, or the missing
    value. *)
Definition Cell : Type := option string.

(** The frame that [pd.read_excel] returns: the columns in sheet order. *)
Definition DataFrame : Type := list (string * list Cell).

Definition columns (df : DataFrame) : list string := map fst df.

Fixpoint column (nome_coluna : string) (df : DataFrame) : option (list Cell) :=
  match df with
  | [] => None
  | (nome, cells) :: rest =>
      if String.eqb nome nome_coluna then Some cells
      else column nome_coluna rest
  end.

(** [.astype(str)] on one cell: the missing value becomes ['nan']. *)
Definition astype_str (c : Cell) : string :=
  match c with
  | Some s => s
  | None => "nan"
  end.

(** The test of the list comprehension: [s and s.lower() != 'nan']. *)
Definition kept (s : string) : bool :=
  negb (String.eqb s "") && negb (String.eqb (lower s) "nan").

(** The function after the call of [pd.read_excel], whose result is the
    argument [df]. *)
Definition ler_inscricoes_xls (df : DataFrame) (nome_coluna : string)
  : Result (list string) :=
  match column nome_coluna df with
  | None =>
      Raise (ValueError ("Error: Column '" ++ nome_coluna
                         ++ "' not found in the file. Available columns: "
                         ++ join ", " (columns df)))
  | Some cells =>
      let series := map (fun c => strip (astype_str c)) cells in
      Return (filter kept series)
  end.

(** ** [consultar_varias_inscricoes] *)

Inductive Status : Type :=
| success
| failed
| no_data_returned.

(** The dictionary [entrada_inscricao]; the keys ["error"] and
    ["raw_response"] may be absent. *)
Record Entry : Type := mkEntry {
  numero_inscricao_consultado : string;
  status : Status;
  auditorias : list json;
  error : option string;
  raw_response : option string
}.

Definition CampoPersonalizadoTermoBeneficioList : string :=
  "CampoPersonalizadoTermoBeneficioList".

Definition Auditorias : string := "Auditorias".

(** [if chave not in record: record[chave] = []] *)
Definition garantir_lista (chave : string) (record : json) : Result json :=
  presente <- py_in chave record ;;
  if presente then Return record else py_setitem record chave (JList []).

(** The body of the loop over the records. *)
Definition normalizar (record : json) : Result json :=
  r <- garantir_lista CampoPersonalizadoTermoBeneficioList record ;;
  garantir_lista Auditorias r.

(** [for record in dados_retornados: ... registros_processados.append(record)] *)
Fixpoint processar (dados_retornados registros_processados : list json)
  : Result (list json) :=
  match dados_retornados with
  | [] => Return registros_processados
  | record :: rest =>
      r <- normalizar record ;;
      processar rest (registros_processados ++ [r])%list
  end.

(** The entry built for one registration number from the result of its
    query. *)
Definition entrada_inscricao (numero : string) (consulta_resultado : QueryResult)
  : Result Entry :=
  match consulta_resultado with
  | Success data =>
      let dados_retornados :=
        match data with
        | JList items => items
        | _ => [data]
        end in
      match dados_retornados with
      | [] => Return (mkEntry numero no_data_returned [] None None)
      | _ :: _ =>
          registros_processados <- processar dados_retornados [] ;;
          Return (mkEntry numero success registros_processados None None)
      end
  | Failed err raw => Return (mkEntry numero failed [] (Some err) raw)
  end.

Section Agregador.

(** The query made in iteration [i] (counted from 0) for a number. *)
Variable consultar : nat -> string -> Result QueryResult.

(** [for i, numero in enumerate(inscricoes): ...
     todos_resultados_por_inscricao.append(entrada_inscricao)] *)
Fixpoint percorrer (i : nat) (inscricoes : list string)
  (todos_resultados_por_inscricao : list Entry) : Result (list Entry) :=
  match inscricoes with
  | [] => Return todos_resultados_por_inscricao
  | numero :: rest =>
      consulta_resultado <- consultar i numero ;;
      entrada <- entrada_inscricao numero consulta_resultado ;;
      percorrer (S i) rest (todos_resultados_por_inscricao ++ [entrada])%list
  end.

(** The list [todos_resultados_por_inscricao] when the loop is over. *)
Definition todos_resultados (inscricoes : list string) : Result (list Entry) :=
  percorrer 0 inscricoes [].

End Agregador.

(** What is written to [arquivo_saida]: the list, unless it is empty, in
    which case no file is written. *)
Definition arquivo (todos_resultados_por_inscricao : list Entry)
  : option (list Entry) :=
  match todos_resultados_por_inscricao with
  | [] => None
  | _ :: _ => Some todos_resultados_por_inscricao
  end.

(** What the two lines that write the file do.  [open(arquivo_saida,
    'w')] can raise, and then the file is not touched; [json.dump] can
    raise part-way, and then the file is left with the beginning of the
    document; otherwise the whole document is in the file. *)
Inductive Escrita : Type :=
| OpenRaises (e : Exc)
| DumpRaises (e : Exc)
| Escreve.

(** The file [arquivo_saida] after the call. *)
Inductive Arquivo : Type :=
| Intocado
| Truncado
| Completo (todos_resultados_por_inscricao : list Entry).

(** The function, with the network and the disk as arguments: [rede i]
    is what [requests.get] does in iteration [i], and [disco todos] is
    what writing the list [todos] does.  The function returns what it has
    written whole, or raises: an exception of the loop, or the exception
    of the write, for which it has no handler. *)
Definition consultar_varias_inscricoes (dumps : json -> string)
  (disco : list Entry -> Escrita)
  (rede : nat -> string -> Attempt) (inscricoes : list string)
  : Result (option (list Entry)) :=
  todos <- todos_resultados
             (fun i numero => consultar_auditoria dumps (rede i) numero)
             inscricoes ;;
  match arquivo todos with
  | None => Return None
  | Some documento =>
      match disco documento with
      | OpenRaises e => Raise (Uncaught e)
      | DumpRaises e => Raise (Uncaught e)
      | Escreve => Return (Some documento)
      end
  end.

(** The file after the call of the function.  The write comes after the
    loop, so an exception of the loop leaves the file as it was. *)
Definition arquivo_depois (dumps : json -> string)
  (disco : list Entry -> Escrita)
  (rede : nat -> string -> Attempt) (inscricoes : list string) : Arquivo :=
  match todos_resultados
          (fun i numero => consultar_auditoria dumps (rede i) numero)
          inscricoes with
  | Raise _ => Intocado
  | Return todos =>
      match arquivo todos with
      | None => Intocado
      | Some documento =>
          match disco documento with
          | OpenRaises _ => Intocado
          | DumpRaises _ => Truncado
          | Escreve => Completo documento
          end
      end
  end.

(** The payloads that the data model of the specification admits: one
    object, or a list of objects. *)
Definition is_dict (v : json) : bool :=
  match v with
  | JDict _ => true
  | _ => false
  end.


(** ** Notions used in the statements *)

(** [part] occurs in [whole]. *)
Definition occurs_in (part whole : string) : Prop :=
  exists before after, whole = before ++ part ++ after.

(** The first words of the message of each clause. *)
Definition label (h : Handler) : string :=
  match h with
  | ExceptTimeout => "Timeout exceeded"
  | ExceptHTTPError => "HTTP Error"
  | ExceptConnectionError => "Connection error"
  | ExceptRequestException => "Request error"
  | ExceptJSONDecodeError => "Error decoding JSON"
  | ExceptException => "Unexpected error"
  end.

(** The fields that [normalizar] adds to a record with the given fields. *)
Definition faltantes (fields : list (string * json)) : list (string * json) :=
  ((if has_key CampoPersonalizadoTermoBeneficioList fields then []
    else [(CampoPersonalizadoTermoBeneficioList, JList [])])
   ++
   (if has_key Auditorias fields then [] else [(Auditorias, JList [])]))%list.

(** [Entradas consultar i inscricoes saida]: [saida] holds, in order, the
    entry of each number of [inscricoes], the first one queried in
    iteration [i]. *)
Inductive Entradas (consultar : nat -> string -> Result QueryResult)
  : nat -> list string -> list Entry -> Prop :=
| Entradas_nil : forall i, Entradas consultar i [] []
| Entradas_cons : forall i numero rest q entrada saida,
    consultar i numero = Return q ->
    entrada_inscricao numero q = Return entrada ->
    Entradas consultar (S i) rest saida ->
    Entradas consultar i (numero :: rest) (entrada :: saida).


(** [l] is [l'] with some elements left out. *)
Inductive Subseq {A : Type} : list A -> list A -> Prop :=
| Subseq_nil : Subseq [] []
| Subseq_keep : forall a l l', Subseq l l' -> Subseq (a :: l) (a :: l')
| Subseq_drop : forall a l l', Subseq l l' -> Subseq l (a :: l').

Fixpoint all_space (s : string) : bool :=
  match s with
  | EmptyString => true
  | String c rest => isspace c && all_space rest
  end.

Definition starts_with_space (s : string) : bool :=
  match s with
  | EmptyString => false
  | String c _ => isspace c
  end.

Fixpoint ends_with_space (s : string) : bool :=
  match s with
  | EmptyString => false
  | String c EmptyString => isspace c
  | String _ rest => ends_with_space rest
  end.

(** [t] is [s] without the white space at its two ends. *)
Definition Trimmed (s t : string) : Prop :=
  (exists before after,
      s = before ++ t ++ after
      /\ all_space before = true /\ all_space after = true)
  /\ starts_with_space t = false /\ ends_with_space t = false.

(** Equality of two strings up to the case of their letters. *)
Definition same_ignoring_case (s t : string) : Prop := lower s = lower t.

(** ** Sample inputs *)

Module Sample.

(** [json.dumps] on the values that have one fixed spelling; the other
    values are abbreviated. *)
Definition dumps (v : json) : string :=
  match v with
  | JNull => "null"
  | JBool true => "true"
  | JBool false => "false"
  | JInt z => str_int z
  | JList [] => "[]"
  | JDict [] => "{}"
  | _ => "..."
  end.

Definition decode_msg : string := "Expecting value: line 1 column 1 (char 0)".

(** HTTP 500 with a body that is JSON. *)
Definition r500_json : Response :=
  {| status_code := 500; text := "{}"; resp_json := inl (JDict []);
     http_error_msg := "500 Server Error: Internal Server Error for url: u" |}.

(** HTTP 500 with a body that is not JSON. *)
Definition r500_html : Response :=
  {| status_code := 500; text := "<h1>Oops</h1>";
     resp_json := inr (Exceptions.RequestsJSONDecodeError decode_msg);
     http_error_msg := "500 Server Error: Internal Server Error for url: u" |}.

(** HTTP 300 with a body that is JSON. *)
Definition r300_json : Response :=
  {| status_code := 300; text := "[]"; resp_json := inl (JList []);
     http_error_msg := "" |}.

(** HTTP 200 with a body that is not JSON, under requests 2.27 or later. *)
Definition r200_html : Response :=
  {| status_code := 200; text := "<html>";
     resp_json := inr (Exceptions.RequestsJSONDecodeError decode_msg);
     http_error_msg := "" |}.

(** HTTP 200 with a body that is not JSON, when [.json()] raises the
    error of the [json] module itself. *)
Definition r200_html_json_error : Response :=
  {| status_code := 200; text := "<html>";
     resp_json := inr (Exceptions.JSONDecodeError decode_msg);
     http_error_msg := "" |}.

Definition r200 (data : json) : Response :=
  {| status_code := 200; text := "..."; resp_json := inl data;
     http_error_msg := "" |}.

Definition record_bare : json := JDict [("NumrInscricao", JStr "101")].

Definition record_full : json :=
  JDict [("NumrInscricao", JStr "102");
         (CampoPersonalizadoTermoBeneficioList, JList [JInt 7]);
         (Auditorias, JNull)].

(** A network: a single object for "101", an empty list for "102", a
    list of two objects for "103", HTTP 500 for "104", and a time-out
    otherwise. *)
Definition rede (i : nat) (u : string) : Attempt :=
  if String.eqb u (url "101") then GetReturns (r200 record_bare)
  else if String.eqb u (url "102") then GetReturns (r200 (JList []))
  else if String.eqb u (url "103")
       then GetReturns (r200 (JList [record_full; record_bare]))
  else if String.eqb u (url "104") then GetReturns r500_html
  else GetRaises (Exceptions.ReadTimeout "Read timed out. (read timeout=30)").

Definition inscricoes : list string := ["101"; "102"; "103"; "104"; "105"; "101"].

Definition consultar (i : nat) (numero : string) : Result QueryResult :=
  consultar_auditoria dumps (rede i) numero.

(** A second network: it differs from [rede] only where the run over
    [inscricoes] does not look. *)
Definition rede' (i : nat) (u : string) : Attempt :=
  if (i <? 6)%nat then rede i u else GetReturns (r200 JNull).

(** A disk that takes every document, one on which [open] fails, and
    one that fills up while [json.dump] writes. *)
Definition disco (todos : list Entry) : Escrita := Escreve.


Definition disco_cheio (todos : list Entry) : Escrita :=
  DumpRaises (Exceptions.OSError "[Errno 28] No space left on device").

Definition df : DataFrame :=
  [("NOME", [Some "a"; Some "b"; None; Some "c"; Some "d"; Some "e"]);
   ("NUMR_INSCRICAO",
    [Some " 101 "; None; Some "NaN"; Some "   "; Some "102"; Some "101"])].

End Sample.

(** ** The whole of [ler_inscricoes_xls], with the call of [pd.read_excel] *)

(** An exception of [pd.read_excel]: the [isinstance] answers that the
    [except] clauses around the call ask for, and its [str()]. *)
Record ExcelExc : Type := mkExcelExc {
  is_ImportError : bool;
  is_FileNotFoundError : bool;
  is_ValueError : bool;
  excel_str : string
}.

(** What [pd.read_excel(caminho_xls, ...)] does. *)
Inductive ReadExcel : Type :=
| ReadRaises (e : ExcelExc)
| ReadReturns (df : DataFrame).

(** The exceptions that the function raises. *)
Inductive SetupError : Type :=
| RaiseImportError (msg : string)
| RaiseFileNotFoundError (msg : string)
| RaiseValueError (msg : string)
| RaiseException (msg : string).

Definition setup_msg (x : SetupError) : string :=
  match x with
  | RaiseImportError msg | RaiseFileNotFoundError msg
  | RaiseValueError msg | RaiseException msg => msg
  end.

Definition ler_inscricoes_xls_completo (caminho_xls : string)
  (read_excel : ReadExcel) (nome_coluna : string)
  : SetupError + list string :=
  match read_excel with
  | ReadRaises e =>
      if is_ImportError e
      then inl (RaiseImportError
                  "Missing dependency. Install with: pip install pandas xlrd")
      else if is_FileNotFoundError e
      then inl (RaiseFileNotFoundError
                  ("Error: XLS file not found at path: " ++ caminho_xls))
      else if is_ValueError e
      then inl (RaiseValueError
                  ("Error reading the XLS file (check sheet name or format): "
                   ++ excel_str e))
      else inl (RaiseException
                  ("Unexpected error reading the XLS file: " ++ excel_str e))
  | ReadReturns df =>
      match column nome_coluna df with
      | None =>
          inl (RaiseValueError
                 ("Error: Column '" ++ nome_coluna
                  ++ "' not found in the file. Available columns: "
                  ++ join ", " (columns df)))
      | Some cells =>
          let series := map (fun c => strip (astype_str c)) cells in
          inr (filter kept series)
      end
  end.

(** ** The script run as a program *)

Definition CAMINHO_XLS : string := "C:\Users\marke\GNRE\ies_progoias.xls".

Definition NOME_COLUNA_INSCRICOES : string := "NUMR_INSCRICAO".

(** What a run leaves behind: the output file, and whether the block
    [--- CRITICAL ERROR ---] was printed. *)
Record Execucao : Type := mkExecucao {
  arquivo_saida : Arquivo;
  erro_critico : bool
}.

(** The [__main__] block: read the numbers, query them and write the
    file, and catch every exception of the two calls. *)
Definition main (read_excel : ReadExcel) (dumps : json -> string)
  (disco : list Entry -> Escrita) (rede : nat -> string -> Attempt)
  : Execucao :=
  match ler_inscricoes_xls_completo CAMINHO_XLS read_excel
          NOME_COLUNA_INSCRICOES with
  | inl _ => mkExecucao Intocado true
  | inr inscricoes_lidas =>
      mkExecucao
        (arquivo_depois dumps disco rede inscricoes_lidas)
        match consultar_varias_inscricoes dumps disco rede
                inscricoes_lidas with
        | Return _ => false
        | Raise _ => true
        end
  end.

(** ** More notions used in the statements *)

(** A record after normalisation, when the record is an object. *)
Definition normalizado (record : json) : json :=
  match record with
  | JDict fields => JDict (fields ++ faltantes fields)%list
  | _ => record
  end.

(** The list that the loop over the records runs through: the payload
    itself when it is a list, and otherwise the payload alone. *)
Definition dados_retornados (data : json) : list json :=
  match data with
  | JList items => items
  | _ => [data]
  end.

(** The JSON values that are neither containers nor strings. *)
Definition is_scalar (v : json) : bool :=
  match v with
  | JNull | JBool _ | JInt _ | JFloat _ => true
  | JStr _ | JList _ | JDict _ => false
  end.

(** A string that the reader leaves as it is. *)
Definition limpo (s : string) : bool :=
  negb (starts_with_space s) && negb (ends_with_space s) && kept s.


(** * Properties *)

(** ** Dictionaries *)

Lemma has_key_app (k : string) (l l' : list (string * json)) :
  has_key k (l ++ l')%list = has_key k l || has_key k l'.
Proof.
  induction l as [|[k' v] l IH]; simpl; [reflexivity|].
  rewrite IH. apply orb_assoc.
Qed.

Lemma set_item_absent (k : string) (v : json) (l : list (string * json)) :
  has_key k l = false -> set_item k v l = (l ++ [(k, v)])%list.
Proof.
  induction l as [|[k' v'] l IH]; simpl; intros H; [reflexivity|].
  apply orb_false_elim in H. destruct H as [Hk Hl].
  rewrite Hk, (IH Hl). reflexivity.
Qed.

Lemma get_item_app_present (k : string) (l l' : list (string * json)) :
  has_key k l = true -> get_item k (l ++ l')%list = get_item k l.
Proof.
  induction l as [|[k' v] l IH]; simpl; intros H; [discriminate|].
  destruct (String.eqb k' k); [reflexivity|]. apply IH. exact H.
Qed.

Lemma get_item_app_absent (k : string) (l l' : list (string * json)) :
  has_key k l = false -> get_item k (l ++ l')%list = get_item k l'.
Proof.
  induction l as [|[k' v] l IH]; simpl; intros H; [reflexivity|].
  apply orb_false_elim in H. destruct H as [Hk Hl].
  rewrite Hk. apply IH. exact Hl.
Qed.

Lemma get_item_absent (k : string) (l : list (string * json)) :
  has_key k l = false -> get_item k l = None.
Proof.
  induction l as [|[k' v] l IH]; simpl; intros H; [reflexivity|].
  apply orb_false_elim in H. destruct H as [Hk Hl].
  rewrite Hk. apply IH. exact Hl.
Qed.

Lemma garantir_lista_dict (chave : string) (fields : list (string * json)) :
  garantir_lista chave (JDict fields)
  = Return (JDict (if has_key chave fields then fields
                   else (fields ++ [(chave, JList [])])%list)).
Proof.
  unfold garantir_lista. simpl.
  destruct (has_key chave fields) eqn:H; [reflexivity|].
  simpl. rewrite (set_item_absent _ _ _ H). reflexivity.
Qed.

(** On a record that is an object, [normalizar] appends the missing
    fields and does nothing else. *)
Lemma normalizar_dict (fields : list (string * json)) :
  normalizar (JDict fields) = Return (JDict (fields ++ faltantes fields)%list).
Proof.
  unfold normalizar, faltantes.
  rewrite garantir_lista_dict. simpl.
  rewrite garantir_lista_dict.
  destruct (has_key CampoPersonalizadoTermoBeneficioList fields) eqn:Hc.
  - destruct (has_key Auditorias fields) eqn:Ha; simpl.
    + rewrite app_nil_r. reflexivity.
    + reflexivity.
  - rewrite has_key_app. simpl. rewrite orb_false_r.
    destruct (has_key Auditorias fields) eqn:Ha; simpl.
    + reflexivity.
    + rewrite <- app_assoc. reflexivity.
Qed.

Lemma faltantes_spec (fields : list (string * json)) :
  Forall (fun kv => snd kv = JList []
                    /\ (fst kv = CampoPersonalizadoTermoBeneficioList
                        \/ fst kv = Auditorias)
                    /\ has_key (fst kv) fields = false)
         (faltantes fields).
Proof.
  unfold faltantes.
  destruct (has_key CampoPersonalizadoTermoBeneficioList fields) eqn:Hc;
    destruct (has_key Auditorias fields) eqn:Ha; simpl;
    repeat (apply Forall_cons || apply Forall_nil); simpl;
    repeat split; auto.
Qed.

Lemma has_key_normalized (k : string) (fields : list (string * json)) :
  k = CampoPersonalizadoTermoBeneficioList \/ k = Auditorias ->
  has_key k (fields ++ faltantes fields)%list = true.
Proof.
  intros Hk. rewrite has_key_app. unfold faltantes.
  destruct Hk as [-> | ->].
  - destruct (has_key CampoPersonalizadoTermoBeneficioList fields) eqn:Hc;
      [reflexivity|].
    reflexivity.
  - destruct (has_key Auditorias fields) eqn:Ha; [reflexivity|].
    rewrite has_key_app. simpl. apply orb_true_r.
Qed.

Lemma get_item_inserted (k : string) (fields : list (string * json)) :
  k = CampoPersonalizadoTermoBeneficioList \/ k = Auditorias ->
  has_key k fields = false ->
  get_item k (fields ++ faltantes fields)%list = Some (JList []).
Proof.
  intros Hk Habs. rewrite (get_item_app_absent _ _ _ Habs). unfold faltantes.
  destruct Hk as [-> | ->].
  - rewrite Habs. reflexivity.
  - rewrite Habs.
    destruct (has_key CampoPersonalizadoTermoBeneficioList fields);
      reflexivity.
Qed.

Lemma get_item_other (k : string) (fields : list (string * json)) :
  k <> CampoPersonalizadoTermoBeneficioList -> k <> Auditorias ->
  get_item k (fields ++ faltantes fields)%list = get_item k fields.
Proof.
  intros Hc Ha.
  destruct (has_key k fields) eqn:Hk.
  - apply get_item_app_present. exact Hk.
  - rewrite (get_item_app_absent _ _ _ Hk), (get_item_absent _ _ Hk).
    apply get_item_absent. unfold faltantes. rewrite has_key_app.
    assert (Hc' : String.eqb CampoPersonalizadoTermoBeneficioList k = false)
      by (apply String.eqb_neq; congruence).
    assert (Ha' : String.eqb Auditorias k = false)
      by (apply String.eqb_neq; congruence).
    destruct (has_key CampoPersonalizadoTermoBeneficioList fields);
      destruct (has_key Auditorias fields); cbn [has_key];
      rewrite ?Hc', ?Ha'; reflexivity.
Qed.

(** ** The loop over the records *)

Lemma processar_app (dados acc : list json) :
  processar dados acc
  = (saida <- processar dados [] ;; Return (acc ++ saida)%list).
Proof.
  revert acc. induction dados as [|record rest IH]; intros acc; simpl.
  - rewrite app_nil_r. reflexivity.
  - destruct (normalizar record) as [r|x]; simpl; [|reflexivity].
    rewrite (IH (acc ++ [r])%list), (IH [r]).
    destruct (processar rest []) as [saida|x]; simpl; [|reflexivity].
    rewrite <- app_assoc. reflexivity.
Qed.

Lemma processar_cons (record : json) (rest : list json) :
  processar (record :: rest) []
  = (r <- normalizar record ;;
     saida <- processar rest [] ;; Return (r :: saida)).
Proof.
  simpl. destruct (normalizar record) as [r|x]; simpl; [|reflexivity].
  apply processar_app.
Qed.

Lemma processar_length (dados saida : list json) :
  processar dados [] = Return saida -> length saida = length dados.
Proof.
  revert saida. induction dados as [|record rest IH]; intros saida.
  - simpl. intros H. injection H as <-. reflexivity.
  - rewrite processar_cons.
    destruct (normalizar record) as [r|x]; simpl; [|discriminate].
    destruct (processar rest []) as [s|x]; simpl; [|discriminate].
    intros H. injection H as <-. simpl. f_equal. apply IH. reflexivity.
Qed.


(** ** One entry *)

Lemma entrada_inscricao_numero (numero : string) (q : QueryResult) (e : Entry) :
  entrada_inscricao numero q = Return e ->
  numero_inscricao_consultado e = numero.
Proof.
  unfold entrada_inscricao. intros H.
  destruct q as [data|err raw].
  - destruct (match data with JList items => items | _ => [data] end)
      as [|d ds].
    + injection H as <-. reflexivity.
    + destruct (processar (d :: ds) []); simpl in H; [|discriminate].
      injection H as <-. reflexivity.
  - injection H as <-. reflexivity.
Qed.

Lemma entrada_inscricao_status (numero : string) (q : QueryResult) (e : Entry) :
  entrada_inscricao numero q = Return e ->
  (status e = success /\ auditorias e <> [])
  \/ (status e <> success /\ auditorias e = []).
Proof.
  unfold entrada_inscricao. intros H.
  destruct q as [data|err raw].
  - destruct (match data with JList items => items | _ => [data] end)
      as [|d ds].
    + injection H as <-. right. split; [discriminate | reflexivity].
    + destruct (processar (d :: ds) []) as [s|x] eqn:Hp; simpl in H;
        [|discriminate].
      injection H as <-. left. split; [reflexivity|]. simpl.
      apply processar_length in Hp. destruct s; [discriminate Hp|discriminate].
  - injection H as <-. right. split; [discriminate | reflexivity].
Qed.


(** ** The loop over the registration numbers *)

Section Percorrer.

Variable consultar : nat -> string -> Result QueryResult.

Lemma percorrer_app (i : nat) (inscricoes : list string) (acc : list Entry) :
  percorrer consultar i inscricoes acc
  = (saida <- percorrer consultar i inscricoes [] ;;
     Return (acc ++ saida)%list).
Proof.
  revert i acc. induction inscricoes as [|numero rest IH]; intros i acc; simpl.
  - rewrite app_nil_r. reflexivity.
  - destruct (consultar i numero) as [q|x]; simpl; [|reflexivity].
    destruct (entrada_inscricao numero q) as [e|x]; simpl; [|reflexivity].
    rewrite (IH (S i) (acc ++ [e])%list), (IH (S i) [e]).
    destruct (percorrer consultar (S i) rest []) as [saida|x]; simpl;
      [|reflexivity].
    rewrite <- app_assoc. reflexivity.
Qed.

Lemma percorrer_cons (i : nat) (numero : string) (rest : list string) :
  percorrer consultar i (numero :: rest) []
  = (q <- consultar i numero ;;
     e <- entrada_inscricao numero q ;;
     saida <- percorrer consultar (S i) rest [] ;;
     Return (e :: saida)).
Proof.
  simpl. destruct (consultar i numero) as [q|x]; simpl; [|reflexivity].
  destruct (entrada_inscricao numero q) as [e|x]; simpl; [|reflexivity].
  apply percorrer_app.
Qed.

(** The loop returns exactly the lists that [Entradas] describes. *)
Lemma percorrer_Entradas (i : nat) (inscricoes : list string)
  (saida : list Entry) :
  percorrer consultar i inscricoes [] = Return saida
  <-> Entradas consultar i inscricoes saida.
Proof.
  split.
  - revert i saida. induction inscricoes as [|numero rest IH]; intros i saida.
    + simpl. intros H. injection H as <-. constructor.
    + rewrite percorrer_cons.
      destruct (consultar i numero) as [q|x] eqn:Hq; simpl; [|discriminate].
      destruct (entrada_inscricao numero q) as [e|x] eqn:He; simpl;
        [|discriminate].
      destruct (percorrer consultar (S i) rest []) as [s|x] eqn:Hs; simpl;
        [|discriminate].
      intros H. injection H as <-.
      econstructor; eauto.
  - induction 1 as [i | i numero rest q e saida Hq He _ IH].
    + reflexivity.
    + rewrite percorrer_cons, Hq. simpl. rewrite He. simpl. rewrite IH.
      reflexivity.
Qed.


Lemma Entradas_numeros (i : nat) (inscricoes : list string)
  (saida : list Entry) :
  Entradas consultar i inscricoes saida ->
  map numero_inscricao_consultado saida = inscricoes.
Proof.
  induction 1 as [| i numero rest q e saida Hq He _ IH]; simpl; [reflexivity|].
  rewrite IH, (entrada_inscricao_numero _ _ _ He). reflexivity.
Qed.

Lemma Entradas_nth (i : nat) (inscricoes : list string) (saida : list Entry) :
  Entradas consultar i inscricoes saida ->
  forall j numero, nth_error inscricoes j = Some numero ->
  exists q e, consultar (i + j) numero = Return q
              /\ entrada_inscricao numero q = Return e
              /\ nth_error saida j = Some e.
Proof.
  induction 1 as [| i numero rest q e saida Hq He _ IH]; intros j n Hj.
  - destruct j; discriminate.
  - destruct j as [|j]; simpl in Hj.
    + injection Hj as <-. exists q, e. rewrite Nat.add_0_r. auto.
    + destruct (IH j n Hj) as (q' & e' & H1 & H2 & H3).
      exists q', e'. rewrite Nat.add_succ_r. auto.
Qed.

Lemma Entradas_In (i : nat) (inscricoes : list string) (saida : list Entry) :
  Entradas consultar i inscricoes saida ->
  forall e, In e saida ->
  exists numero q, entrada_inscricao numero q = Return e.
Proof.
  induction 1 as [| i numero rest q e saida Hq He _ IH]; intros e' Hin.
  - destruct Hin.
  - destruct Hin as [<- | Hin]; [eauto | apply IH; exact Hin].
Qed.


Lemma percorrer_ext (consultar' : nat -> string -> Result QueryResult)
  (i : nat) (inscricoes : list string) (acc : list Entry) :
  (forall j numero, nth_error inscricoes j = Some numero ->
                    consultar (i + j) numero = consultar' (i + j) numero) ->
  percorrer consultar i inscricoes acc = percorrer consultar' i inscricoes acc.
Proof.
  revert i acc. induction inscricoes as [|numero rest IH]; intros i acc H.
  - reflexivity.
  - simpl. generalize (H 0 numero eq_refl). rewrite Nat.add_0_r. intros <-.
    destruct (consultar i numero) as [q|x]; simpl; [|reflexivity].
    destruct (entrada_inscricao numero q) as [e|x]; simpl; [|reflexivity].
    apply IH. intros j n Hj. specialize (H (S j) n Hj).
    rewrite Nat.add_succ_r in H. exact H.
Qed.

End Percorrer.

Lemma consultar_auditoria_local (dumps : json -> string)
  (get get' : string -> Attempt) (numero : string) :
  get (url numero) = get' (url numero) ->
  consultar_auditoria dumps get numero = consultar_auditoria dumps get' numero.
Proof.
  intros H. unfold consultar_auditoria, try_body. rewrite H. reflexivity.
Qed.

(** ** The aggregator *)



(** C5.  When the query of a registration number succeeds with a single
    JSON object, the entry of that number has status [success] and an
    [auditorias] list of exactly one element; that element has both list
    fields, each one an empty list when the payload did not have it. *)
Theorem single_object_payload
  (consultar : nat -> string -> Result QueryResult)
  (inscricoes : list string) (i : nat) (numero : string)
  (fields : list (string * json)) (todos : list Entry) :
  nth_error inscricoes i = Some numero ->
  consultar i numero = Return (Success (JDict fields)) ->
  todos_resultados consultar inscricoes = Return todos ->
  exists e fields',
    entrada_inscricao numero (Success (JDict fields)) = Return e
    /\ nth_error todos i = Some e
    /\ status e = success
    /\ auditorias e = [JDict fields']
    /\ has_key CampoPersonalizadoTermoBeneficioList fields' = true
    /\ has_key Auditorias fields' = true
    /\ (has_key CampoPersonalizadoTermoBeneficioList fields = false ->
        get_item CampoPersonalizadoTermoBeneficioList fields'
        = Some (JList []))
    /\ (has_key Auditorias fields = false ->
        get_item Auditorias fields' = Some (JList [])).
Proof.
  intros Hn Hq Ht.
  apply percorrer_Entradas in Ht.
  destruct (Entradas_nth _ _ _ _ Ht i numero Hn) as (q & e & Hq' & He & Hnth).
  simpl in Hq'. rewrite Hq in Hq'. injection Hq' as <-.
  exists e, (fields ++ faltantes fields)%list.
  split; [exact He|]. split; [exact Hnth|].
  unfold entrada_inscricao in He.
  rewrite processar_cons, normalizar_dict in He. simpl in He.
  injection He as <-. simpl.
  repeat split.
  - apply has_key_normalized. left. reflexivity.
  - apply has_key_normalized. right. reflexivity.
  - apply get_item_inserted. left. reflexivity.
  - apply get_item_inserted. right. reflexivity.
Qed.

Lemma single_object_payload_witness :
  exists e fields',
    entrada_inscricao "101" (Success Sample.record_bare) = Return e
    /\ nth_error
         [mkEntry "101" success
            [JDict [("NumrInscricao", JStr "101");
                    (CampoPersonalizadoTermoBeneficioList, JList []);
                    (Auditorias, JList [])]] None None] 0 = Some e
    /\ status e = success
    /\ auditorias e = [JDict fields']
    /\ has_key CampoPersonalizadoTermoBeneficioList fields' = true
    /\ has_key Auditorias fields' = true
    /\ (has_key CampoPersonalizadoTermoBeneficioList
          [("NumrInscricao", JStr "101")] = false ->
        get_item CampoPersonalizadoTermoBeneficioList fields'
        = Some (JList []))
    /\ (has_key Auditorias [("NumrInscricao", JStr "101")] = false ->
        get_item Auditorias fields' = Some (JList [])).
Proof.
  apply (single_object_payload Sample.consultar ["101"] 0 "101"
           [("NumrInscricao", JStr "101")]); reflexivity.
Defined.

(** C6.  When the query of a registration number succeeds with the empty
    list, the entry of that number has status [no_data_returned] and an
    empty [auditorias] list. *)
Theorem empty_list_payload
  (consultar : nat -> string -> Result QueryResult)
  (inscricoes : list string) (i : nat) (numero : string)
  (todos : list Entry) :
  nth_error inscricoes i = Some numero ->
  consultar i numero = Return (Success (JList [])) ->
  todos_resultados consultar inscricoes = Return todos ->
  exists e,
    entrada_inscricao numero (Success (JList [])) = Return e
    /\ nth_error todos i = Some e
    /\ status e = no_data_returned
    /\ auditorias e = [].
Proof.
  intros Hn Hq Ht.
  apply percorrer_Entradas in Ht.
  destruct (Entradas_nth _ _ _ _ Ht i numero Hn) as (q & e & Hq' & He & Hnth).
  simpl in Hq'. rewrite Hq in Hq'. injection Hq' as <-.
  exists e. split; [exact He|]. split; [exact Hnth|].
  simpl in He. injection He as <-. split; reflexivity.
Qed.

Lemma empty_list_payload_witness :
  exists e,
    entrada_inscricao "102" (Success (JList [])) = Return e
    /\ nth_error
         [mkEntry "101" success
            [JDict [("NumrInscricao", JStr "101");
                    (CampoPersonalizadoTermoBeneficioList, JList []);
                    (Auditorias, JList [])]] None None;
          mkEntry "102" no_data_returned [] None None] 1 = Some e
    /\ status e = no_data_returned
    /\ auditorias e = [].
Proof.
  apply (empty_list_payload Sample.consultar ["101"; "102"] 1 "102");
    reflexivity.
Defined.

(** C7.  On a record, normalisation returns the record with at most two
    fields appended: each appended field is one of the two list fields,
    was absent, and is set to the empty list.  Every field that the
    record had keeps its value, every field other than the two is looked
    up as before, and a record that had both fields comes back
    unchanged. *)
Theorem normalizar_frame (fields : list (string * json)) :
  exists added,
    normalizar (JDict fields) = Return (JDict (fields ++ added)%list)
    /\ Forall (fun kv => snd kv = JList []
                         /\ (fst kv = CampoPersonalizadoTermoBeneficioList
                             \/ fst kv = Auditorias)
                         /\ has_key (fst kv) fields = false) added
    /\ (forall k, has_key k fields = true ->
                  get_item k (fields ++ added)%list = get_item k fields)
    /\ (forall k, k <> CampoPersonalizadoTermoBeneficioList ->
                  k <> Auditorias ->
                  get_item k (fields ++ added)%list = get_item k fields)
    /\ (has_key CampoPersonalizadoTermoBeneficioList fields = true ->
        has_key Auditorias fields = true -> added = []).
Proof.
  exists (faltantes fields). split; [apply normalizar_dict|].
  split; [apply faltantes_spec|].
  split; [intros k Hk; apply get_item_app_present; exact Hk|].
  split; [intros k; apply get_item_other|].
  intros Hc Ha. unfold faltantes. rewrite Hc, Ha. reflexivity.
Qed.

Lemma normalizar_frame_witness :
  normalizar Sample.record_full = Return Sample.record_full
  /\ normalizar Sample.record_bare
     = Return (JDict [("NumrInscricao", JStr "101");
                      (CampoPersonalizadoTermoBeneficioList, JList []);
                      (Auditorias, JList [])]).
Proof.
  split.
  - destruct (normalizar_frame
                [("NumrInscricao", JStr "102");
                 (CampoPersonalizadoTermoBeneficioList, JList [JInt 7]);
                 (Auditorias, JNull)]) as (added & Hn & _ & _ & _ & Hfull).
    rewrite (Hfull eq_refl eq_refl) in Hn. exact Hn.
  - reflexivity.
Defined.

(** C9.  The content of the output file is a function of the registration
    numbers and of the answers to the queries that the run makes: two
    networks that answer the queries of the run alike give the same
    result and leave the same file, whatever else they do and whatever the
    disk does. *)
Theorem same_answers_same_output (dumps : json -> string)
  (disco : list Entry -> Escrita)
  (rede rede' : nat -> string -> Attempt) (inscricoes : list string) :
  (forall i numero, nth_error inscricoes i = Some numero ->
                    rede i (url numero) = rede' i (url numero)) ->
  consultar_varias_inscricoes dumps disco rede inscricoes
  = consultar_varias_inscricoes dumps disco rede' inscricoes
  /\ arquivo_depois dumps disco rede inscricoes
     = arquivo_depois dumps disco rede' inscricoes.
Proof.
  intros H.
  unfold consultar_varias_inscricoes, arquivo_depois, todos_resultados.
  rewrite (percorrer_ext
             (fun i numero => consultar_auditoria dumps (rede i) numero)
             (fun i numero => consultar_auditoria dumps (rede' i) numero)).
  - split; reflexivity.
  - intros j numero Hj. simpl. apply consultar_auditoria_local.
    apply H. exact Hj.
Qed.

Lemma same_answers_same_output_witness :
  Sample.rede 6 (url "101") <> Sample.rede' 6 (url "101")
  /\ consultar_varias_inscricoes Sample.dumps Sample.disco Sample.rede
       Sample.inscricoes
     = consultar_varias_inscricoes Sample.dumps Sample.disco Sample.rede'
         Sample.inscricoes
  /\ arquivo_depois Sample.dumps Sample.disco Sample.rede Sample.inscricoes
     = arquivo_depois Sample.dumps Sample.disco Sample.rede'
         Sample.inscricoes.
Proof.
  split; [discriminate|].
  apply (same_answers_same_output Sample.dumps Sample.disco Sample.rede
           Sample.rede' Sample.inscricoes).
  intros i numero Hi.
  do 6 (destruct i as [|i]; [reflexivity|]).
  destruct i; discriminate Hi.
Defined.

(** C10.  In every entry of the list that the loop builds, the status is
    [success] exactly when the [auditorias] list is not empty; an entry
    with status [failed] or [no_data_returned] has an empty [auditorias]
    list. *)
Theorem success_iff_auditorias
  (consultar : nat -> string -> Result QueryResult)
  (inscricoes : list string) (todos : list Entry) (e : Entry) :
  todos_resultados consultar inscricoes = Return todos ->
  In e todos ->
  (status e = success <-> auditorias e <> [])
  /\ (status e = failed \/ status e = no_data_returned -> auditorias e = []).
Proof.
  intros Ht Hin. apply percorrer_Entradas in Ht.
  destruct (Entradas_In _ _ _ _ Ht e Hin) as (numero & q & He).
  destruct (entrada_inscricao_status _ _ _ He) as [[Hs Ha] | [Hs Ha]].
  - split; [tauto|]. rewrite Hs. intros [H | H]; discriminate H.
  - split; [|auto]. split; intros H; [contradiction | congruence].
Qed.

Lemma success_iff_auditorias_witness :
  (status (mkEntry "102" no_data_returned [] None None) = success
   <-> auditorias (mkEntry "102" no_data_returned [] None None) <> [])
  /\ (status (mkEntry "102" no_data_returned [] None None) = failed
      \/ status (mkEntry "102" no_data_returned [] None None)
         = no_data_returned ->
      auditorias (mkEntry "102" no_data_returned [] None None) = []).
Proof.
  apply (success_iff_auditorias Sample.consultar ["101"; "102"]
           [mkEntry "101" success
              [JDict [("NumrInscricao", JStr "101");
                      (CampoPersonalizadoTermoBeneficioList, JList []);
                      (Auditorias, JList [])]] None None;
            mkEntry "102" no_data_returned [] None None]).
  - reflexivity.
  - right. left. reflexivity.
Defined.

(** ** Strings *)

Lemma append_assoc (s t u : string) : (s ++ t) ++ u = s ++ t ++ u.
Proof.
  induction s as [|c s IH]; simpl; [reflexivity|]. rewrite IH. reflexivity.
Qed.

Lemma append_nil_r (s : string) : s ++ "" = s.
Proof.
  induction s as [|c s IH]; simpl; [reflexivity|]. rewrite IH. reflexivity.
Qed.

Lemma occurs_in_here (s before after : string) :
  occurs_in s (before ++ s ++ after).
Proof.
  exists before, after. reflexivity.
Qed.

Lemma occurs_in_left (s t u : string) : occurs_in s t -> occurs_in s (t ++ u).
Proof.
  intros (before & after & ->). exists before, (after ++ u).
  rewrite !append_assoc. reflexivity.
Qed.

Lemma occurs_in_right (s t u : string) : occurs_in s u -> occurs_in s (t ++ u).
Proof.
  intros (before & after & ->). exists (t ++ before), after.
  rewrite !append_assoc. reflexivity.
Qed.

Lemma occurs_in_end (s before : string) : occurs_in s (before ++ s).
Proof.
  exists before, "". rewrite append_nil_r. reflexivity.
Qed.

Lemma prefix_head (a c : ascii) (s msg : string) :
  prefix (String a s) (String c msg) = true -> a = c.
Proof.
  simpl. destruct (ascii_dec a c) as [E | _]; [intros _; exact E | discriminate].
Qed.

(** A message starts with the label of one clause only. *)
Lemma label_exclusive (h h' : Handler) (msg : string) :
  prefix (label h) msg = true -> prefix (label h') msg = true -> h = h'.
Proof.
  destruct msg as [|c msg]; [destruct h; discriminate|].
  destruct h, h'; cbv [label]; intros H H'; try reflexivity;
    apply prefix_head in H; apply prefix_head in H';
    rewrite <- H in H'; discriminate H'.
Qed.

(** ** [consultar_auditoria] *)

Section ConsultaProps.

Variable dumps : json -> string.

(** A clause other than the one for [HTTPError] returns a failure whose
    message starts with the label of the clause. *)
Lemma run_handler_returns (h : Handler) (numero : string) (x : Escaped) :
  h <> ExceptHTTPError ->
  exists err raw,
    run_handler dumps h numero x = Return (Failed err raw)
    /\ prefix (label h) err = true.
Proof.
  intros Hh. destruct h; try congruence; simpl;
    eexists; eexists; (split; [reflexivity | reflexivity]).
Qed.

(** The clause for [HTTPError], on the exception of [raise_for_status]. *)
Lemma run_handler_http (numero : string) (e : Exc) (r : Response)
  (resposta : option Response) :
  match resp_json r with
  | inl _ => true
  | inr e' => is_JSONDecodeError e'
  end = true ->
  exists err,
    run_handler dumps ExceptHTTPError numero (mkEscaped e (Some r) resposta)
    = Return (Failed err (Some (text r)))
    /\ prefix (label ExceptHTTPError) err = true
    /\ occurs_in numero err
    /\ occurs_in (str_int (status_code r)) err
    /\ match resp_json r with
       | inl error_details => occurs_in (dumps error_details) err
       | inr _ => occurs_in (text r) err
       end.
Proof.
  intros Hok. cbn [run_handler e_response raised].
  destruct (resp_json r) as [details | e'].
  - eexists. split; [reflexivity|]. split; [reflexivity|].
    split; [|split].
    + apply occurs_in_left. apply occurs_in_here.
    + apply occurs_in_left. apply occurs_in_right. apply occurs_in_right.
      apply occurs_in_right. apply occurs_in_right. apply occurs_in_end.
    + apply occurs_in_right. apply occurs_in_end.
  - rewrite Hok.
    eexists. split; [reflexivity|]. split; [reflexivity|].
    split; [|split].
    + apply occurs_in_left. apply occurs_in_here.
    + apply occurs_in_left. apply occurs_in_right. apply occurs_in_right.
      apply occurs_in_right. apply occurs_in_right. apply occurs_in_end.
    + apply occurs_in_right. apply occurs_in_end.
Qed.

Lemma handler_of_not_http (e : Exc) :
  not_to_http_clause e = true -> handler_of e <> ExceptHTTPError.
Proof.
  unfold not_to_http_clause, handler_of.
  destruct (is_Timeout e); [discriminate|].
  destruct (is_HTTPError e); [discriminate|].
  destruct (is_ConnectionError e); [discriminate|].
  destruct (is_RequestException e); [discriminate|].
  destruct (is_JSONDecodeError e); discriminate.
Qed.

(** The order of the clauses. *)
Lemma handler_of_order (e : Exc) :
  (is_Timeout e = true -> handler_of e = ExceptTimeout)
  /\ (is_Timeout e = false -> is_HTTPError e = true ->
      handler_of e = ExceptHTTPError)
  /\ (is_Timeout e = false -> is_HTTPError e = false ->
      is_ConnectionError e = true -> handler_of e = ExceptConnectionError)
  /\ (is_Timeout e = false -> is_HTTPError e = false ->
      is_ConnectionError e = false -> is_RequestException e = true ->
      is_JSONDecodeError e = false ->
      handler_of e = ExceptRequestException)
  /\ (is_Timeout e = false -> is_HTTPError e = false ->
      is_ConnectionError e = false -> is_RequestException e = false ->
      is_JSONDecodeError e = true -> handler_of e = ExceptJSONDecodeError)
  /\ (is_Timeout e = false -> is_HTTPError e = false ->
      is_ConnectionError e = false -> is_RequestException e = false ->
      is_JSONDecodeError e = false -> handler_of e = ExceptException).
Proof.
  unfold handler_of.
  repeat split; intros; repeat match goal with
                               | H : _ = _ |- _ => rewrite H; clear H
                               end; reflexivity.
Qed.

End ConsultaProps.

Lemma body_ok_of_library_ok (r : Response) :
  library_ok (GetReturns r) = true ->
  match resp_json r with
  | inl _ => true
  | inr e' => is_JSONDecodeError e'
  end = true.
Proof.
  simpl. destruct (resp_json r) as [d | e']; [reflexivity|].
  intros H. apply andb_prop in H. destruct H as [H _]. exact H.
Qed.

(** What can leave the [try] body when the library behaves: either an
    exception that does not go to the clause for [HTTPError], or the
    [HTTPError] of [raise_for_status] with its response. *)
Lemma try_body_escaped (get : string -> Attempt) (numero : string)
  (x : Escaped) :
  library_ok (get (url numero)) = true ->
  try_body get numero = inr x ->
  handler_of (raised x) <> ExceptHTTPError
  \/ (exists r, get (url numero) = GetReturns r
                /\ handler_of (raised x) = ExceptHTTPError
                /\ e_response x = Some r).
Proof.
  unfold try_body. destruct (get (url numero)) as [e | r]; intros Hok Hx.
  - injection Hx as <-. left. apply handler_of_not_http. exact Hok.
  - destruct (raise_for_status r) as [e|] eqn:Hs.
    + injection Hx as <-. right. exists r.
      unfold raise_for_status in Hs.
      destruct ((400 <=? status_code r)%Z && (status_code r <? 600)%Z);
        [|discriminate].
      injection Hs as <-. auto.
    + destruct (resp_json r) as [d | e] eqn:Hj; [discriminate|].
      injection Hx as <-. left. apply handler_of_not_http.
      simpl in Hok. rewrite Hj in Hok.
      apply andb_prop in Hok. destruct Hok as [_ H]. exact H.
Qed.

(** When the library behaves ([HTTPError] is only raised by
    [raise_for_status]; a body that cannot be decoded raises a
    [json.JSONDecodeError]), [consultar_auditoria] returns a tagged result
    and lets no exception through.  The result is the success when the
    [try] body ends, and otherwise a failure written by exactly one
    clause, the first that fits in the order of the source. *)
Lemma consultar_auditoria_classifies (dumps : json -> string)
  (get : string -> Attempt) (numero : string) :
  library_ok (get (url numero)) = true ->
  exists q,
    consultar_auditoria dumps get numero = Return q
    /\ match try_body get numero with
       | inl data => q = Success data
       | inr x =>
           let e := raised x in
           (exists err raw,
               q = Failed err raw
               /\ forall h, prefix (label h) err = true <-> h = handler_of e)
           /\ (is_Timeout e = true -> handler_of e = ExceptTimeout)
           /\ (is_Timeout e = false -> is_HTTPError e = true ->
               handler_of e = ExceptHTTPError)
           /\ (is_Timeout e = false -> is_HTTPError e = false ->
               is_ConnectionError e = true ->
               handler_of e = ExceptConnectionError)
           /\ (is_Timeout e = false -> is_HTTPError e = false ->
               is_ConnectionError e = false ->
               is_RequestException e = true ->
               is_JSONDecodeError e = false ->
               handler_of e = ExceptRequestException)
           /\ (is_Timeout e = false -> is_HTTPError e = false ->
               is_ConnectionError e = false ->
               is_RequestException e = false ->
               is_JSONDecodeError e = true ->
               handler_of e = ExceptJSONDecodeError)
           /\ (is_Timeout e = false -> is_HTTPError e = false ->
               is_ConnectionError e = false ->
               is_RequestException e = false ->
               is_JSONDecodeError e = false ->
               handler_of e = ExceptException)
       end.
Proof.
  intros Hok. unfold consultar_auditoria.
  destruct (try_body get numero) as [data | x] eqn:Hx.
  - exists (Success data). split; reflexivity.
  - assert (Hrun : exists err raw,
               run_handler dumps (handler_of (raised x)) numero x
               = Return (Failed err raw)
               /\ prefix (label (handler_of (raised x))) err = true).
    { destruct (try_body_escaped get numero x Hok Hx)
        as [Hn | (r & Hget & Hh & Hr)].
      - apply run_handler_returns. exact Hn.
      - rewrite Hh. destruct x as [e er resp]. simpl in Hr. subst er.
        rewrite Hget in Hok.
        destruct (run_handler_http dumps numero e r resp
                    (body_ok_of_library_ok r Hok))
          as (err & H1 & H2 & _).
        exists err, (Some (text r)). split; assumption. }
    destruct Hrun as (err & raw & Hrun & Hlabel).
    exists (Failed err raw). split; [exact Hrun|].
    split; [|apply handler_of_order].
    exists err, raw. split; [reflexivity|].
    intros h. split.
    + intros Hh. eapply label_exclusive; eassumption.
    + intros ->. exact Hlabel.
Qed.

Lemma consultar_auditoria_classifies_witness :
  library_ok (GetRaises (Exceptions.ConnectTimeout "timed out")) = true
  /\ exists q,
       consultar_auditoria Sample.dumps
         (fun _ => GetRaises (Exceptions.ConnectTimeout "timed out")) "101"
       = Return q
       /\ exists err raw,
            q = Failed err raw
            /\ forall h, prefix (label h) err = true <-> h = ExceptTimeout.
Proof.
  split; [reflexivity|].
  destruct (consultar_auditoria_classifies Sample.dumps
              (fun _ => GetRaises (Exceptions.ConnectTimeout "timed out"))
              "101" eq_refl) as (q & Hq & Hclass & _).
  exists q. split; [exact Hq | exact Hclass].
Defined.

(** The order of the clauses is the order of the specification for
    every exception but two kinds: one that is both an [HTTPError] and a
    [ConnectionError] (no class of [requests] is), and one that is both a
    [RequestException] and a [json.JSONDecodeError]. *)
Lemma priority_agrees_elsewhere (e : Exc) :
  is_HTTPError e && is_ConnectionError e = false ->
  is_RequestException e && is_JSONDecodeError e = false ->
  class_of_handler (handler_of e) = spec_class e.
Proof.
  unfold handler_of, spec_class.
  destruct (is_Timeout e), (is_HTTPError e), (is_ConnectionError e),
    (is_RequestException e), (is_JSONDecodeError e); simpl;
    intros H1 H2; try reflexivity; discriminate.
Qed.

(** C2.  The priority of the claim is broken at one place.  The error
    that [.json()] raises since requests 2.27 is a [json.JSONDecodeError]
    and a [RequestException]; the order of the claim tests JSON decoding
    before the catch-all and so puts it in the JSON-decoding class, but
    in the source the clause for [RequestException] stands before the
    clause for [json.JSONDecodeError] and answers first.  For a 200
    response whose body is not JSON the function returns the generic
    request failure, not the decoding failure. *)
Theorem decode_error_misses_its_class :
  spec_class (Exceptions.RequestsJSONDecodeError Sample.decode_msg)
  = JsonDecodeClass
  /\ handler_of (Exceptions.RequestsJSONDecodeError Sample.decode_msg)
     = ExceptRequestException
  /\ class_of_handler
       (handler_of (Exceptions.RequestsJSONDecodeError Sample.decode_msg))
     = CatchAllClass
  /\ exists err raw,
       consultar_auditoria Sample.dumps
         (fun _ => GetReturns Sample.r200_html) "102"
       = Return (Failed err raw)
       /\ prefix (label ExceptRequestException) err = true
       /\ prefix (label ExceptJSONDecodeError) err = false.
Proof.
  split; [reflexivity|]. split; [reflexivity|]. split; [reflexivity|].
  eexists. eexists. split; [reflexivity|]. split; reflexivity.
Qed.

(** C3.  When the response has a 4xx or 5xx status (and a body that
    cannot be decoded raises a [json.JSONDecodeError]), the result is a
    failure whose message contains the registration number and the status
    code; the message contains the decoded details when the body is JSON
    and the raw text of the body otherwise; in both cases the raw text of
    the body is attached as [raw_response]. *)
Theorem http_status_failure (dumps : json -> string)
  (get : string -> Attempt) (numero : string) (r : Response) :
  get (url numero) = GetReturns r ->
  (400 <= status_code r < 600)%Z ->
  library_ok (GetReturns r) = true ->
  exists err,
    consultar_auditoria dumps get numero
    = Return (Failed err (Some (text r)))
    /\ occurs_in numero err
    /\ occurs_in (str_int (status_code r)) err
    /\ match resp_json r with
       | inl error_details => occurs_in (dumps error_details) err
       | inr _ => occurs_in (text r) err
       end.
Proof.
  intros Hget Hstatus Hok.
  unfold consultar_auditoria, try_body. rewrite Hget.
  unfold raise_for_status.
  replace ((400 <=? status_code r)%Z && (status_code r <? 600)%Z) with true
    by (symmetry; apply andb_true_intro; split;
        [apply Z.leb_le | apply Z.ltb_lt]; lia).
  cbn [raised].
  change (handler_of (HTTPError (http_error_msg r))) with ExceptHTTPError.
  destruct (run_handler_http dumps numero (HTTPError (http_error_msg r)) r
              (Some r) (body_ok_of_library_ok r Hok))
    as (err & H1 & _ & H2).
  exists err. split; [exact H1 | exact H2].
Qed.

Lemma http_status_failure_witness :
  exists err,
    consultar_auditoria Sample.dumps (fun _ => GetReturns Sample.r500_html)
      "104"
    = Return (Failed err (Some "<h1>Oops</h1>"))
    /\ occurs_in "104" err
    /\ occurs_in "500" err
    /\ occurs_in "<h1>Oops</h1>" err.
Proof.
  apply (http_status_failure Sample.dumps
           (fun _ => GetReturns Sample.r500_html) "104" Sample.r500_html).
  - reflexivity.
  - simpl. lia.
  - reflexivity.
Defined.

(** C3, as the specification states it, fails twice: with a status of
    500 and a body that is JSON the raw text is attached all the same,
    and with a status of 300, which is not 2xx, the result is a
    success. *)
Lemma raw_response_with_json_error_body :
  consultar_auditoria Sample.dumps (fun _ => GetReturns Sample.r500_json) "104"
  = Return (Failed
              "HTTP Error for registration 104: 500 Server Error: Internal Server Error for url: u. Status: 500. Details: {}"
              (Some "{}"))
  /\ consultar_auditoria Sample.dumps (fun _ => GetReturns Sample.r300_json)
       "104"
     = Return (Success (JList [])).
Proof.
  split; reflexivity.
Qed.

(** What the clause for [json.JSONDecodeError] does when it is reached:
    the raw text of the response is attached. *)
Lemma undecodable_body_when_clause_reached (dumps : json -> string)
  (get : string -> Attempt) (numero : string) (r : Response) (e : Exc) :
  get (url numero) = GetReturns r ->
  raise_for_status r = None ->
  resp_json r = inr e ->
  handler_of e = ExceptJSONDecodeError ->
  consultar_auditoria dumps get numero
  = Return (Failed ("Error decoding JSON for registration " ++ numero
                    ++ ": " ++ exc_str e ++ ".")
                   (Some (text r))).
Proof.
  intros Hget Hs Hj Hh. unfold consultar_auditoria, try_body.
  rewrite Hget, Hs, Hj. cbn [raised]. rewrite Hh. reflexivity.
Qed.

(** The clause for [RequestException] stands before it. *)
Lemma undecodable_body_when_request_exception (dumps : json -> string)
  (get : string -> Attempt) (numero : string) (r : Response) (e : Exc) :
  get (url numero) = GetReturns r ->
  raise_for_status r = None ->
  resp_json r = inr e ->
  handler_of e = ExceptRequestException ->
  consultar_auditoria dumps get numero
  = Return (Failed ("Request error for registration " ++ numero
                    ++ ": " ++ exc_str e ++ ".") None).
Proof.
  intros Hget Hs Hj Hh. unfold consultar_auditoria, try_body.
  rewrite Hget, Hs, Hj. cbn [raised]. rewrite Hh. reflexivity.
Qed.

(** C4.  With the decoding error that [.json()] raises since requests
    2.27, a 200 response whose body is not JSON is answered by the clause
    for [RequestException]: the message names the decoding error, but the
    failure is a request error and no [raw_response] is attached. *)
Theorem undecodable_body_is_request_error :
  consultar_auditoria Sample.dumps (fun _ => GetReturns Sample.r200_html) "101"
  = Return (Failed
              "Request error for registration 101: Expecting value: line 1 column 1 (char 0)."
              None).
Proof.
  reflexivity.
Qed.

(** ** [ler_inscricoes_xls] *)

Lemma lstrip_spec (s : string) :
  exists before,
    s = before ++ lstrip s
    /\ all_space before = true
    /\ starts_with_space (lstrip s) = false.
Proof.
  induction s as [|c rest (before & Heq & Hsp & Hst)].
  - exists "". auto.
  - simpl. destruct (isspace c) eqn:Hc.
    + exists (String c before). simpl. rewrite Hc, Hsp, <- Heq. auto.
    + exists "". simpl. auto.
Qed.

Lemma rstrip_spec (s : string) :
  exists after,
    s = rstrip s ++ after
    /\ all_space after = true
    /\ ends_with_space (rstrip s) = false.
Proof.
  induction s as [|c rest (after & Heq & Hsp & Hend)].
  - exists "". auto.
  - simpl. destruct (rstrip rest) as [|d k] eqn:Hr.
    + simpl in Heq. subst after.
      destruct (isspace c) eqn:Hc.
      * exists (String c rest). simpl. rewrite Hc, Hsp. auto.
      * exists rest. simpl. auto.
    + exists after. cbn [append]. rewrite Heq at 1.
      cbn [append]. auto.
Qed.

Lemma rstrip_starts (s : string) :
  starts_with_space s = false -> starts_with_space (rstrip s) = false.
Proof.
  destruct s as [|c rest]; [reflexivity|]. simpl. intros Hc.
  destruct (rstrip rest); [rewrite Hc|]; simpl; auto.
Qed.

Lemma strip_Trimmed (s : string) : Trimmed s (strip s).
Proof.
  unfold Trimmed, strip.
  destruct (lstrip_spec s) as (before & Hb & Hbs & Hst).
  destruct (rstrip_spec (lstrip s)) as (after & Ha & Has & Hend).
  split; [|split].
  - exists before, after. rewrite <- Ha. auto.
  - apply rstrip_starts. exact Hst.
  - exact Hend.
Qed.

Lemma lower_char_n (c : ascii) :
  lower_char c = "n"%char -> c = "n"%char \/ c = "N"%char.
Proof.
  destruct c as [[] [] [] [] [] [] [] []]; vm_compute; intros H;
    try discriminate H; auto.
Qed.

Lemma lower_char_a (c : ascii) :
  lower_char c = "a"%char -> c = "a"%char \/ c = "A"%char.
Proof.
  destruct c as [[] [] [] [] [] [] [] []]; vm_compute; intros H;
    try discriminate H; auto.
Qed.

(** The strings that [lower] sends to ['nan']. *)
Lemma lower_nan (s : string) :
  lower s = "nan"
  <-> In s ["nan"; "naN"; "nAn"; "nAN"; "Nan"; "NaN"; "NAn"; "NAN"].
Proof.
  split.
  - destruct s as [|c1 [|c2 [|c3 [|c4 s]]]]; simpl; intros H;
      try discriminate H.
    injection H as H1 H2 H3.
    apply lower_char_n in H1, H3. apply lower_char_a in H2.
    destruct H1 as [-> | ->], H2 as [-> | ->], H3 as [-> | ->]; tauto.
  - intros H. simpl in H.
    repeat (destruct H as [<- | H]; [reflexivity|]). destruct H.
Qed.

Lemma kept_false (s : string) :
  kept s = false <-> s = "" \/ same_ignoring_case s "nan".
Proof.
  unfold kept, same_ignoring_case.
  change (lower "nan") with "nan".
  destruct (String.eqb_spec s "") as [He | He];
    destruct (String.eqb_spec (lower s) "nan") as [Hn | Hn]; simpl;
    split; auto; try discriminate; intros [H | H]; contradiction.
Qed.

Lemma filter_Subseq {A : Type} (f : A -> bool) (l : list A) :
  Subseq (filter f l) l.
Proof.
  induction l as [|a l IH]; simpl; [constructor|].
  destruct (f a); constructor; exact IH.
Qed.

Lemma count_occ_filter_kept (l : list string) (s : string) :
  count_occ string_dec (filter kept l) s
  = if kept s then count_occ string_dec l s else 0%nat.
Proof.
  induction l as [|a l IH]; simpl.
  - destruct (kept s); reflexivity.
  - destruct (kept a) eqn:Ha; simpl; destruct (string_dec a s) as [-> | Hne].
    + rewrite IH, Ha. reflexivity.
    + exact IH.
    + rewrite IH, Ha. reflexivity.
    + exact IH.
Qed.

(** C8.  When the sheet has the column, the function returns a list
    built as follows.  Every cell is taken as a string (the missing value
    as ['nan']) and trimmed of the white space at its two ends.  The
    result is a sub-sequence of the trimmed values, so their order is
    kept; a value that is neither empty nor equal to ['nan'] up to case
    occurs in the result as often as among the trimmed values, so nothing
    is deduplicated; the empty string and the eight spellings of ['nan']
    do not occur in it. *)
Theorem ler_inscricoes_xls_keeps (df : DataFrame) (nome_coluna : string)
  (cells : list Cell) :
  column nome_coluna df = Some cells ->
  exists inscricoes,
    ler_inscricoes_xls df nome_coluna = Return inscricoes
    /\ Forall (fun c => Trimmed (astype_str c) (strip (astype_str c))) cells
    /\ Subseq inscricoes (map (fun c => strip (astype_str c)) cells)
    /\ (forall s,
           count_occ string_dec inscricoes s
           = if kept s
             then count_occ string_dec
                    (map (fun c => strip (astype_str c)) cells) s
             else 0%nat)
    /\ (forall s, kept s = false <-> s = "" \/ same_ignoring_case s "nan")
    /\ (forall s,
           same_ignoring_case s "nan"
           <-> In s ["nan"; "naN"; "nAn"; "nAN"; "Nan"; "NaN"; "NAn"; "NAN"]).
Proof.
  intros Hcol. unfold ler_inscricoes_xls. rewrite Hcol.
  eexists. split; [reflexivity|].
  split; [apply Forall_forall; intros c _; apply strip_Trimmed|].
  split; [apply filter_Subseq|].
  split; [intros s; apply count_occ_filter_kept|].
  split; [exact kept_false | exact lower_nan].
Qed.

Lemma ler_inscricoes_xls_keeps_witness :
  column "NUMR_INSCRICAO" Sample.df
  = Some [Some " 101 "; None; Some "NaN"; Some "   "; Some "102"; Some "101"]
  /\ exists inscricoes,
       ler_inscricoes_xls Sample.df "NUMR_INSCRICAO" = Return inscricoes
       /\ Subseq inscricoes ["101"; "nan"; "NaN"; ""; "102"; "101"]
       /\ count_occ string_dec inscricoes "101" = 2%nat
       /\ count_occ string_dec inscricoes "NaN" = 0%nat.
Proof.
  split; [reflexivity|].
  destruct (ler_inscricoes_xls_keeps Sample.df "NUMR_INSCRICAO"
              [Some " 101 "; None; Some "NaN"; Some "   "; Some "102";
               Some "101"] eq_refl) as (inscricoes & H & _ & Hsub & Hcount & _).
  exists inscricoes. split; [exact H|]. split; [exact Hsub|].
  split; [exact (Hcount "101") | exact (Hcount "NaN")].
Defined.

(** * Further properties of the three functions *)

(** ** [consultar_auditoria] *)

Section ConsultaMore.

Variable dumps : json -> string.

Lemma run_handler_not_success (h : Handler) (numero : string) (x : Escaped)
  (data : json) :
  run_handler dumps h numero x <> Return (Success data).
Proof.
  destruct h; cbn [run_handler]; try discriminate.
  destruct (e_response x) as [r|]; [|discriminate].
  destruct (resp_json r) as [d | e']; [discriminate|].
  destruct (is_JSONDecodeError e'); discriminate.
Qed.

Lemma run_handler_names (h : Handler) (numero : string) (x : Escaped)
  (err : string) (raw : option string) :
  run_handler dumps h numero x = Return (Failed err raw) ->
  occurs_in numero err.
Proof.
  assert (Hinj : forall a b, Return (Failed a b) = Return (Failed err raw) ->
                             a = err) by (intros a b H; congruence).
  destruct h; cbn [run_handler].
  - intros H. apply Hinj in H. subst err. apply occurs_in_here.
  - destruct (e_response x) as [r|]; [|discriminate].
    destruct (resp_json r) as [d | e'].
    + intros H. apply Hinj in H. subst err.
      apply occurs_in_left. apply occurs_in_here.
    + destruct (is_JSONDecodeError e'); [|discriminate].
      intros H. apply Hinj in H. subst err.
      apply occurs_in_left. apply occurs_in_here.
  - intros H. apply Hinj in H. subst err. apply occurs_in_here.
  - intros H. apply Hinj in H. subst err. apply occurs_in_here.
  - intros H. apply Hinj in H. subst err. apply occurs_in_here.
  - intros H. apply Hinj in H. subst err. apply occurs_in_here.
Qed.

Lemma raise_for_status_None (r : Response) :
  raise_for_status r = None
  <-> (status_code r < 400 \/ 600 <= status_code r)%Z.
Proof.
  unfold raise_for_status.
  destruct (Z.leb_spec 400 (status_code r)) as [Hlo | Hlo];
    destruct (Z.ltb_spec (status_code r) 600) as [Hhi | Hhi]; simpl;
    split; intros H; try reflexivity; try discriminate H; lia.
Qed.

(** The function answers with a success exactly when the request came
    back with a status outside 400..599 and a body that decodes; the data
    of the success is the decoded body. *)
Theorem success_iff_decoded_body (get : string -> Attempt) (numero : string)
  (data : json) :
  consultar_auditoria dumps get numero = Return (Success data)
  <-> exists r,
        get (url numero) = GetReturns r
        /\ (status_code r < 400 \/ 600 <= status_code r)%Z
        /\ resp_json r = inl data.
Proof.
  unfold consultar_auditoria, try_body. split.
  - destruct (get (url numero)) as [e | r].
    + intros H. destruct (run_handler_not_success _ _ _ _ H).
    + destruct (raise_for_status r) as [e|] eqn:Hs.
      * intros H. destruct (run_handler_not_success _ _ _ _ H).
      * destruct (resp_json r) as [d | e] eqn:Hj.
        -- intros H. injection H as <-. exists r.
           split; [reflexivity|]. split; [|exact Hj].
           apply raise_for_status_None. exact Hs.
        -- intros H. destruct (run_handler_not_success _ _ _ _ H).
  - intros (r & Hget & Hs & Hj). rewrite Hget.
    apply raise_for_status_None in Hs. rewrite Hs, Hj. reflexivity.
Qed.

(** Whatever the failure, its message contains the registration number. *)
Theorem failure_names_the_inscricao (get : string -> Attempt)
  (numero err : string) (raw : option string) :
  consultar_auditoria dumps get numero = Return (Failed err raw) ->
  occurs_in numero err.
Proof.
  unfold consultar_auditoria.
  destruct (try_body get numero) as [data | x]; [discriminate|].
  apply run_handler_names.
Qed.

(** The raw text that a failure carries: none after a time-out, a
    connection failure, another request failure or an unexpected error;
    the text of the response after an HTTP status; after a decoding error
    the text of the response, or ['N/A'] when [requests.get] itself
    raised the error and there is no response. *)
Theorem raw_response_by_clause (get : string -> Attempt)
  (numero err : string) (raw : option string) :
  consultar_auditoria dumps get numero = Return (Failed err raw) ->
  exists x,
    try_body get numero = inr x
    /\ raw = match handler_of (raised x) with
             | ExceptHTTPError => option_map text (e_response x)
             | ExceptJSONDecodeError =>
                 match get (url numero) with
                 | GetReturns r => Some (text r)
                 | GetRaises _ => Some "N/A"
                 end
             | _ => None
             end.
Proof.
  unfold consultar_auditoria.
  destruct (try_body get numero) as [data | x] eqn:Hx; [discriminate|].
  intros H. exists x. split; [reflexivity|].
  assert (Hresp : resposta x = match get (url numero) with
                               | GetReturns r => Some r
                               | GetRaises _ => None
                               end).
  { unfold try_body in Hx. destruct (get (url numero)) as [e | r].
    - injection Hx as <-. reflexivity.
    - destruct (raise_for_status r); [injection Hx as <-; reflexivity|].
      destruct (resp_json r); [discriminate|].
      injection Hx as <-. reflexivity. }
  destruct (handler_of (raised x)); cbn [run_handler] in H.
  - injection H as _ <-. reflexivity.
  - destruct (e_response x) as [r|]; [|discriminate].
    destruct (resp_json r) as [d | e'].
    + injection H as _ <-. reflexivity.
    + destruct (is_JSONDecodeError e'); [|discriminate].
      injection H as _ <-. reflexivity.
  - injection H as _ <-. reflexivity.
  - injection H as _ <-. reflexivity.
  - injection H as _ <-. rewrite Hresp.
    destruct (get (url numero)); reflexivity.
  - injection H as _ <-. reflexivity.
Qed.

(** An exception that is a time-out is reported as a time-out, whatever
    else it is (a [ConnectTimeout] is a connection failure too) and
    wherever in the [try] body it was raised; the message is not one of a
    connection failure. *)
Theorem timeout_reported_as_timeout (get : string -> Attempt)
  (numero : string) (x : Escaped) :
  try_body get numero = inr x ->
  is_Timeout (raised x) = true ->
  consultar_auditoria dumps get numero
  = Return (Failed ("Timeout exceeded while querying registration "
                    ++ numero ++ ".") None)
  /\ prefix (label ExceptConnectionError)
       ("Timeout exceeded while querying registration " ++ numero ++ ".")
     = false.
Proof.
  intros Hx Ht. unfold consultar_auditoria. rewrite Hx.
  unfold handler_of. rewrite Ht. split; reflexivity.
Qed.

(** With a 4xx or 5xx status, an error of [.json()] on the error body
    that is not a [json.JSONDecodeError] is not caught: it leaves the
    function. *)
Theorem error_body_exception_propagates (get : string -> Attempt)
  (numero : string) (r : Response) (e' : Exc) :
  get (url numero) = GetReturns r ->
  (400 <= status_code r < 600)%Z ->
  resp_json r = inr e' ->
  is_JSONDecodeError e' = false ->
  consultar_auditoria dumps get numero = Raise (Uncaught e').
Proof.
  intros Hget Hs Hj He.
  unfold consultar_auditoria, try_body. rewrite Hget.
  unfold raise_for_status.
  replace ((400 <=? status_code r)%Z && (status_code r <? 600)%Z) with true
    by (symmetry; apply andb_true_intro; split;
        [apply Z.leb_le | apply Z.ltb_lt]; lia).
  cbn [raised].
  change (handler_of (HTTPError (http_error_msg r))) with ExceptHTTPError.
  cbn [run_handler e_response]. rewrite Hj, He. reflexivity.
Qed.

End ConsultaMore.

Lemma success_iff_decoded_body_witness :
  consultar_auditoria Sample.dumps
    (fun _ => GetReturns (Sample.r200 Sample.record_bare)) "101"
  = Return (Success Sample.record_bare).
Proof.
  apply (proj2 (success_iff_decoded_body Sample.dumps
                  (fun _ => GetReturns (Sample.r200 Sample.record_bare))
                  "101" Sample.record_bare)).
  exists (Sample.r200 Sample.record_bare).
  split; [reflexivity|]. split; [left; simpl; lia | reflexivity].
Defined.

Lemma failure_names_the_inscricao_witness :
  occurs_in "104"
    "HTTP Error for registration 104: 500 Server Error: Internal Server Error for url: u. Status: 500. Raw response: <h1>Oops</h1>".
Proof.
  apply (failure_names_the_inscricao Sample.dumps
           (fun _ => GetReturns Sample.r500_html) "104" _
           (Some "<h1>Oops</h1>")).
  reflexivity.
Defined.

Lemma raw_response_by_clause_witness :
  exists x,
    try_body (fun _ => GetRaises (Exceptions.JSONDecodeError Sample.decode_msg))
      "101" = inr x
    /\ Some "N/A"
       = match handler_of (raised x) with
         | ExceptHTTPError => option_map text (e_response x)
         | ExceptJSONDecodeError => Some "N/A"
         | _ => None
         end.
Proof.
  apply (raw_response_by_clause Sample.dumps
           (fun _ => GetRaises (Exceptions.JSONDecodeError Sample.decode_msg))
           "101"
           "Error decoding JSON for registration 101: Expecting value: line 1 column 1 (char 0)."
           (Some "N/A")).
  reflexivity.
Defined.

Lemma timeout_reported_as_timeout_witness :
  consultar_auditoria Sample.dumps
    (fun _ => GetRaises (Exceptions.ConnectTimeout "timed out")) "105"
  = Return (Failed "Timeout exceeded while querying registration 105." None)
  /\ prefix (label ExceptConnectionError)
       "Timeout exceeded while querying registration 105." = false.
Proof.
  apply (timeout_reported_as_timeout Sample.dumps
           (fun _ => GetRaises (Exceptions.ConnectTimeout "timed out")) "105"
           (mkEscaped (Exceptions.ConnectTimeout "timed out") None None));
    reflexivity.
Defined.

Lemma error_body_exception_propagates_witness :
  consultar_auditoria Sample.dumps
    (fun _ => GetReturns
                (mkResponse 503 "busy" (inr (Exceptions.KeyError "k"))
                   "503 Server Error: Service Unavailable for url: u"))
    "101"
  = Raise (Uncaught (Exceptions.KeyError "k")).
Proof.
  apply (error_body_exception_propagates Sample.dumps
           (fun _ => GetReturns
                       (mkResponse 503 "busy" (inr (Exceptions.KeyError "k"))
                          "503 Server Error: Service Unavailable for url: u"))
           "101"
           (mkResponse 503 "busy" (inr (Exceptions.KeyError "k"))
              "503 Server Error: Service Unavailable for url: u")).
  - reflexivity.
  - simpl. lia.
  - reflexivity.
  - reflexivity.
Defined.

(** ** [ler_inscricoes_xls], whole *)

(** After [pd.read_excel] has returned, the function is the one above. *)
Lemma ler_inscricoes_xls_completo_frame (caminho_xls : string)
  (df : DataFrame) (nome_coluna : string) (inscricoes : list string) :
  ler_inscricoes_xls_completo caminho_xls (ReadReturns df) nome_coluna
  = inr inscricoes
  <-> ler_inscricoes_xls df nome_coluna = Return inscricoes.
Proof.
  unfold ler_inscricoes_xls_completo, ler_inscricoes_xls.
  destruct (column nome_coluna df); split; intros H;
    try discriminate H; injection H as <-; reflexivity.
Qed.

Lemma column_None (nome_coluna : string) (df : DataFrame) :
  column nome_coluna df = None <-> ~ In nome_coluna (columns df).
Proof.
  induction df as [|[nome cells] df IH]; simpl.
  - split; [intros _ [] | reflexivity].
  - destruct (String.eqb_spec nome nome_coluna) as [-> | Hne].
    + split; [discriminate | intros H; destruct H; left; reflexivity].
    + rewrite IH. split.
      * intros H [E | Hin]; [contradiction | exact (H Hin)].
      * intros H Hin. apply H. right. exact Hin.
Qed.

Lemma occurs_in_refl (s : string) : occurs_in s s.
Proof.
  exists "", "". simpl. rewrite append_nil_r. reflexivity.
Qed.

Lemma join_occurs (sep c : string) (parts : list string) :
  In c parts -> occurs_in c (join sep parts).
Proof.
  induction parts as [|p rest IH]; [intros []|].
  intros [-> | Hin].
  - destruct rest; simpl.
    + apply occurs_in_refl.
    + apply occurs_in_left. apply occurs_in_refl.
  - destruct rest as [|q rest]; [destruct Hin|].
    change (join sep (p :: q :: rest)) with (p ++ sep ++ join sep (q :: rest)).
    apply occurs_in_right. apply occurs_in_right. apply IH. exact Hin.
Qed.

(** When the sheet has no column of the name asked for, the function
    raises a [ValueError] whose message contains that name and the name
    of every column that the sheet has. *)
Theorem missing_column_lists_columns (caminho_xls : string) (df : DataFrame)
  (nome_coluna : string) :
  ~ In nome_coluna (columns df) ->
  exists msg,
    ler_inscricoes_xls_completo caminho_xls (ReadReturns df) nome_coluna
    = inl (RaiseValueError msg)
    /\ occurs_in nome_coluna msg
    /\ forall c, In c (columns df) -> occurs_in c msg.
Proof.
  intros Habs. apply column_None in Habs.
  unfold ler_inscricoes_xls_completo. rewrite Habs.
  eexists. split; [reflexivity|]. split.
  - apply occurs_in_here.
  - intros c Hc. apply occurs_in_right. apply occurs_in_right.
    apply occurs_in_right. apply join_occurs. exact Hc.
Qed.

Lemma missing_column_lists_columns_witness :
  exists msg,
    ler_inscricoes_xls_completo CAMINHO_XLS (ReadReturns Sample.df) "INSCRICAO"
    = inl (RaiseValueError msg)
    /\ occurs_in "INSCRICAO" msg
    /\ forall c, In c ["NOME"; "NUMR_INSCRICAO"] -> occurs_in c msg.
Proof.
  apply (missing_column_lists_columns CAMINHO_XLS Sample.df "INSCRICAO").
  simpl. intros [H | [H | H]]; [discriminate H | discriminate H | exact H].
Defined.

(** The function returns a list exactly when [pd.read_excel] returned a
    frame that has the column; in every other case it raises. *)
Theorem returns_iff_column_read (caminho_xls : string)
  (read_excel : ReadExcel) (nome_coluna : string) :
  (exists inscricoes,
      ler_inscricoes_xls_completo caminho_xls read_excel nome_coluna
      = inr inscricoes)
  <-> exists df, read_excel = ReadReturns df /\ In nome_coluna (columns df).
Proof.
  unfold ler_inscricoes_xls_completo. split.
  - intros [inscricoes H]. destruct read_excel as [e | df].
    + destruct (is_ImportError e); [discriminate|].
      destruct (is_FileNotFoundError e); [discriminate|].
      destruct (is_ValueError e); discriminate.
    + exists df. split; [reflexivity|].
      destruct (column nome_coluna df) eqn:Hc; [|discriminate].
      destruct (in_dec string_dec nome_coluna (columns df)) as [Hin | Hn];
        [exact Hin|].
      apply column_None in Hn. congruence.
  - intros (df & -> & Hin).
    destruct (column nome_coluna df) eqn:Hc.
    + eexists. reflexivity.
    + apply column_None in Hc. contradiction.
Qed.

Lemma returns_iff_column_read_witness :
  exists inscricoes,
    ler_inscricoes_xls_completo CAMINHO_XLS (ReadReturns Sample.df)
      NOME_COLUNA_INSCRICOES = inr inscricoes.
Proof.
  apply (proj2 (returns_iff_column_read CAMINHO_XLS (ReadReturns Sample.df)
                  NOME_COLUNA_INSCRICOES)).
  exists Sample.df. split; [reflexivity|]. right. left. reflexivity.
Defined.

Lemma lstrip_clean (s : string) :
  starts_with_space s = false -> lstrip s = s.
Proof.
  destruct s as [|c rest]; simpl; [reflexivity|].
  intros ->. reflexivity.
Qed.

Lemma rstrip_clean (s : string) :
  ends_with_space s = false -> rstrip s = s.
Proof.
  induction s as [|c rest IH]; [reflexivity|].
  destruct rest as [|d k].
  - simpl. intros ->. reflexivity.
  - intros H. change (ends_with_space (String d k) = false) in H.
    change (rstrip (String c (String d k)))
      with (match rstrip (String d k) with
            | EmptyString =>
                if isspace c then EmptyString else String c EmptyString
            | kept => String c kept
            end).
    rewrite (IH H). reflexivity.
Qed.

Lemma strip_clean (s : string) :
  starts_with_space s = false -> ends_with_space s = false -> strip s = s.
Proof.
  intros Hs He. unfold strip. rewrite (lstrip_clean s Hs).
  apply rstrip_clean. exact He.
Qed.

Lemma limpo_strip (s : string) : kept (strip s) = true -> limpo (strip s) = true.
Proof.
  intros Hk. unfold limpo.
  destruct (strip_Trimmed s) as (_ & Hs & He).
  rewrite Hs, He, Hk. reflexivity.
Qed.

Lemma filter_map_limpo (cells : list Cell) :
  Forall (fun s => limpo s = true)
         (filter kept (map (fun c => strip (astype_str c)) cells)).
Proof.
  apply Forall_forall. intros s Hin.
  apply filter_In in Hin. destruct Hin as [Hin Hk].
  apply in_map_iff in Hin. destruct Hin as (c & <- & _).
  apply limpo_strip. exact Hk.
Qed.

Lemma limpo_spec (s : string) :
  limpo s = true
  <-> s <> "" /\ starts_with_space s = false /\ ends_with_space s = false
      /\ ~ same_ignoring_case s "nan".
Proof.
  unfold limpo. split.
  - intros H. apply andb_prop in H. destruct H as [H Hk].
    apply andb_prop in H. destruct H as [Hs He].
    apply negb_true_iff in Hs, He.
    assert (Hnot : kept s <> false) by congruence.
    rewrite kept_false in Hnot. tauto.
  - intros (Hne & Hs & He & Hnan). rewrite Hs, He. simpl.
    destruct (kept s) eqn:Hk; [reflexivity|].
    apply kept_false in Hk. tauto.
Qed.

(** Every registration number that the function returns is a non-empty
    string without white space at either end, and is not ['nan'] in any
    case. *)
Theorem returned_inscricoes_are_clean (caminho_xls : string)
  (read_excel : ReadExcel) (nome_coluna : string) (inscricoes : list string) :
  ler_inscricoes_xls_completo caminho_xls read_excel nome_coluna
  = inr inscricoes ->
  Forall (fun s => s <> "" /\ starts_with_space s = false
                   /\ ends_with_space s = false
                   /\ ~ same_ignoring_case s "nan") inscricoes.
Proof.
  unfold ler_inscricoes_xls_completo. intros H.
  destruct read_excel as [e | df].
  - destruct (is_ImportError e); [discriminate|].
    destruct (is_FileNotFoundError e); [discriminate|].
    destruct (is_ValueError e); discriminate.
  - destruct (column nome_coluna df) as [cells|]; [|discriminate].
    injection H as <-.
    eapply Forall_impl; [|apply filter_map_limpo].
    intros s Hs. apply limpo_spec. exact Hs.
Qed.

Lemma returned_inscricoes_are_clean_witness :
  Forall (fun s => s <> "" /\ starts_with_space s = false
                   /\ ends_with_space s = false
                   /\ ~ same_ignoring_case s "nan") ["101"; "102"; "101"].
Proof.
  apply (returned_inscricoes_are_clean CAMINHO_XLS (ReadReturns Sample.df)
           NOME_COLUNA_INSCRICOES).
  reflexivity.
Defined.

Lemma filter_map_clean (l : list string) :
  Forall (fun s => limpo s = true) l ->
  filter kept (map (fun c => strip (astype_str c)) (map Some l)) = l.
Proof.
  induction 1 as [|s l Hs _ IH]; [reflexivity|].
  simpl. unfold limpo in Hs.
  apply andb_prop in Hs. destruct Hs as [Hs Hk].
  apply andb_prop in Hs. destruct Hs as [Hst He].
  apply negb_true_iff in Hst, He.
  rewrite (strip_clean s Hst He), Hk, IH. reflexivity.
Qed.

(** A column whose cells are all strings that are non-empty, free of
    white space at their ends and different from ['nan'] is returned as
    it is: same values, same order, same repetitions. *)
Theorem clean_column_is_returned (caminho_xls nome_coluna : string)
  (df : DataFrame) (valores : list string) :
  column nome_coluna df = Some (map Some valores) ->
  Forall (fun s => limpo s = true) valores ->
  ler_inscricoes_xls_completo caminho_xls (ReadReturns df) nome_coluna
  = inr valores.
Proof.
  intros Hc Hl. unfold ler_inscricoes_xls_completo. rewrite Hc.
  rewrite (filter_map_clean _ Hl). reflexivity.
Qed.

Lemma clean_column_is_returned_witness :
  ler_inscricoes_xls_completo CAMINHO_XLS
    (ReadReturns [("NUMR_INSCRICAO", [Some "10 1"; Some "banana"; Some "10 1"])])
    "NUMR_INSCRICAO"
  = inr ["10 1"; "banana"; "10 1"].
Proof.
  apply (clean_column_is_returned CAMINHO_XLS "NUMR_INSCRICAO"
           [("NUMR_INSCRICAO", [Some "10 1"; Some "banana"; Some "10 1"])]
           ["10 1"; "banana"; "10 1"]).
  - reflexivity.
  - repeat constructor.
Defined.

(** Reading is idempotent: a sheet whose column holds the result of a
    read gives that same result again. *)
Theorem reading_twice_changes_nothing (caminho_xls nome_coluna : string)
  (read_excel : ReadExcel) (inscricoes : list string)
  (caminho' nome' : string) :
  ler_inscricoes_xls_completo caminho_xls read_excel nome_coluna
  = inr inscricoes ->
  ler_inscricoes_xls_completo caminho'
    (ReadReturns [(nome', map Some inscricoes)]) nome'
  = inr inscricoes.
Proof.
  intros H.
  assert (Hl : Forall (fun s => limpo s = true) inscricoes).
  { unfold ler_inscricoes_xls_completo in H.
    destruct read_excel as [e | df].
    - destruct (is_ImportError e); [discriminate|].
      destruct (is_FileNotFoundError e); [discriminate|].
      destruct (is_ValueError e); discriminate.
    - destruct (column nome_coluna df) as [cells|]; [|discriminate].
      injection H as <-. apply filter_map_limpo. }
  unfold ler_inscricoes_xls_completo. cbn [column].
  rewrite String.eqb_refl, (filter_map_clean _ Hl). reflexivity.
Qed.

Lemma reading_twice_changes_nothing_witness :
  ler_inscricoes_xls_completo "copy.xls"
    (ReadReturns [("N", map Some ["101"; "102"; "101"])]) "N"
  = inr ["101"; "102"; "101"].
Proof.
  apply (reading_twice_changes_nothing CAMINHO_XLS NOME_COLUNA_INSCRICOES
           (ReadReturns Sample.df) ["101"; "102"; "101"] "copy.xls" "N").
  reflexivity.
Defined.

(** ** Normalisation of the records *)

Lemma garantir_lista_nondict (chave : string) (r : json) :
  is_dict r = false ->
  (garantir_lista chave r = Return r /\ py_in chave r = Return true)
  \/ garantir_lista chave r = Raise TypeError.
Proof.
  unfold garantir_lista.
  destruct r; try discriminate; intros _; simpl; auto.
  - destruct (str_contains chave s); simpl; auto.
  - destruct (existsb (is_str chave) items); simpl; auto.
Qed.

Lemma non_object_record_untouched_aux (r : json) :
  is_dict r = false ->
  normalizar r = Return r \/ normalizar r = Raise TypeError.
Proof.
  intros Hd. unfold normalizar.
  destruct (garantir_lista_nondict CampoPersonalizadoTermoBeneficioList r Hd)
    as [[-> _] | ->]; [|right; reflexivity].
  simpl.
  destruct (garantir_lista_nondict Auditorias r Hd) as [[-> _] | ->]; auto.
Qed.

(** A record that is not an object is never altered: normalisation
    returns it as it is, or raises a [TypeError]; it raises on the values
    that are neither objects, nor lists, nor strings. *)
Theorem non_object_record_untouched (r : json) :
  is_dict r = false ->
  (normalizar r = Return r \/ normalizar r = Raise TypeError)
  /\ (is_scalar r = true -> normalizar r = Raise TypeError).
Proof.
  intros Hd. split; [apply non_object_record_untouched_aux; exact Hd|].
  destruct r; try discriminate; reflexivity.
Qed.

Lemma non_object_record_untouched_witness :
  normalizar (JStr "see Auditorias and CampoPersonalizadoTermoBeneficioList")
  = Return (JStr "see Auditorias and CampoPersonalizadoTermoBeneficioList")
  /\ normalizar (JStr "Auditorias") = Raise TypeError.
Proof.
  split.
  - destruct (non_object_record_untouched
                (JStr "see Auditorias and CampoPersonalizadoTermoBeneficioList")
                eq_refl) as [[H | H] _]; [exact H | discriminate H].
  - destruct (non_object_record_untouched (JStr "Auditorias") eq_refl)
      as [[H | H] _]; [discriminate H | exact H].
Defined.

Lemma normalizar_scalar (r : json) :
  is_scalar r = true -> normalizar r = Raise TypeError.
Proof.
  destruct r; try discriminate; reflexivity.
Qed.

Lemma normalizar_keys (r r' : json) :
  normalizar r = Return r' ->
  py_in CampoPersonalizadoTermoBeneficioList r' = Return true
  /\ py_in Auditorias r' = Return true.
Proof.
  destruct (is_dict r) eqn:Hd.
  - destruct r; try discriminate Hd.
    rewrite normalizar_dict. intros H. injection H as <-.
    cbn [py_in]. rewrite !has_key_normalized; auto.
  - unfold normalizar.
    destruct (garantir_lista_nondict CampoPersonalizadoTermoBeneficioList r Hd)
      as [[-> Hc] | ->]; [|discriminate].
    cbn [bind].
    destruct (garantir_lista_nondict Auditorias r Hd) as [[-> Ha] | ->];
      [|discriminate].
    intros H. injection H as <-. auto.
Qed.

Lemma faltantes_done (fields : list (string * json)) :
  faltantes (fields ++ faltantes fields)%list = [].
Proof.
  unfold faltantes at 1.
  rewrite !has_key_normalized; auto.
Qed.

(** Normalisation is idempotent: a record that it returned is returned
    unchanged when normalised again. *)
Theorem normalizar_idempotent (r r' : json) :
  normalizar r = Return r' -> normalizar r' = Return r'.
Proof.
  destruct (is_dict r) eqn:Hd.
  - destruct r; try discriminate Hd.
    rewrite normalizar_dict. intros H. injection H as <-.
    rewrite normalizar_dict, faltantes_done, app_nil_r. reflexivity.
  - intros H.
    destruct (non_object_record_untouched_aux r Hd) as [E | E];
      rewrite E in H; [|discriminate H].
    injection H as <-. exact E.
Qed.

Lemma normalizar_idempotent_witness :
  normalizar (JDict [("NumrInscricao", JStr "101");
                     (CampoPersonalizadoTermoBeneficioList, JList []);
                     (Auditorias, JList [])])
  = Return (JDict [("NumrInscricao", JStr "101");
                   (CampoPersonalizadoTermoBeneficioList, JList []);
                   (Auditorias, JList [])]).
Proof.
  apply (normalizar_idempotent Sample.record_bare). reflexivity.
Defined.

(** ** The entries *)

Lemma processar_dicts_map (dados : list json) :
  forallb is_dict dados = true ->
  processar dados [] = Return (map normalizado dados).
Proof.
  induction dados as [|record rest IH]; intros H; [reflexivity|].
  simpl in H. apply andb_prop in H. destruct H as [Hd Hrest].
  destruct record; try discriminate Hd.
  rewrite processar_cons, normalizar_dict. cbn [bind].
  rewrite (IH Hrest). reflexivity.
Qed.

Lemma processar_Forall2 (dados saida : list json) :
  processar dados [] = Return saida ->
  Forall2 (fun r r' => normalizar r = Return r') dados saida.
Proof.
  revert saida. induction dados as [|record rest IH]; intros saida.
  - simpl. intros H. injection H as <-. constructor.
  - rewrite processar_cons.
    destruct (normalizar record) as [r|x] eqn:Hn; [|discriminate].
    cbn [bind].
    destruct (processar rest []) as [s|x]; [|discriminate].
    cbn [bind]. intros H. injection H as <-.
    constructor; [exact Hn | apply IH; reflexivity].
Qed.

Lemma Forall2_In_left {A B : Type} (P : A -> B -> Prop) (l : list A)
  (l' : list B) :
  Forall2 P l l' -> forall a, In a l -> exists b, In b l' /\ P a b.
Proof.
  induction 1 as [|x y l l' Hxy _ IH]; intros a Hin; [destruct Hin|].
  destruct Hin as [<- | Hin].
  - exists y. split; [left; reflexivity | exact Hxy].
  - destruct (IH a Hin) as (b & Hb & Hab). exists b. split; [right|]; assumption.
Qed.

Lemma entrada_inscricao_auditorias (numero : string) (q : QueryResult)
  (e : Entry) :
  entrada_inscricao numero q = Return e ->
  Forall (fun r' => exists r, normalizar r = Return r') (auditorias e).
Proof.
  unfold entrada_inscricao. intros H.
  destruct q as [data | err raw]; [|injection H as <-; constructor].
  destruct (match data with JList items => items | _ => [data] end)
    as [|d ds]; [injection H as <-; constructor|].
  destruct (processar (d :: ds) []) as [s|x] eqn:Hp; [|discriminate].
  cbn [bind] in H. injection H as <-. cbn [auditorias].
  apply processar_Forall2 in Hp.
  induction Hp as [|r r' l l' Hr _ IH]; constructor; eauto.
Qed.

Lemma entrada_inscricao_error (numero : string) (q : QueryResult) (e : Entry) :
  entrada_inscricao numero q = Return e ->
  match q with
  | Success _ => status e <> failed /\ error e = None /\ raw_response e = None
  | Failed err raw =>
      status e = failed /\ error e = Some err /\ raw_response e = raw
  end.
Proof.
  unfold entrada_inscricao. intros H.
  destruct q as [data | err raw]; [|injection H as <-; auto].
  destruct (match data with JList items => items | _ => [data] end)
    as [|d ds].
  - injection H as <-. repeat split. discriminate.
  - destruct (processar (d :: ds) []) as [s|x]; [|discriminate].
    cbn [bind] in H. injection H as <-. repeat split. discriminate.
Qed.

Section MoreAggregator.

Variable consultar : nat -> string -> Result QueryResult.

(** The entry of a failed query: status [failed], no audit, and the
    error message and the raw text of the query as they are (the raw text
    absent when the query gave none). *)
Theorem failed_query_entry (inscricoes : list string) (i : nat)
  (numero err : string) (raw : option string) (todos : list Entry) :
  nth_error inscricoes i = Some numero ->
  consultar i numero = Return (Failed err raw) ->
  todos_resultados consultar inscricoes = Return todos ->
  nth_error todos i = Some (mkEntry numero failed [] (Some err) raw).
Proof.
  intros Hn Hq Ht. apply percorrer_Entradas in Ht.
  destruct (Entradas_nth _ _ _ _ Ht i numero Hn) as (q & e & Hq' & He & Hnth).
  simpl in Hq'. rewrite Hq in Hq'. injection Hq' as <-.
  simpl in He. injection He as <-. exact Hnth.
Qed.

(** The entry of a query that succeeds with a non-empty list of objects:
    status [success], and one audit per object of the payload, in the
    order of the payload, each one the object with its missing list
    fields appended. *)
Theorem list_payload_entry (inscricoes : list string) (i : nat)
  (numero : string) (items : list json) (todos : list Entry) :
  nth_error inscricoes i = Some numero ->
  consultar i numero = Return (Success (JList items)) ->
  items <> [] ->
  forallb is_dict items = true ->
  todos_resultados consultar inscricoes = Return todos ->
  nth_error todos i
  = Some (mkEntry numero success (map normalizado items) None None).
Proof.
  intros Hn Hq Hne Hd Ht. apply percorrer_Entradas in Ht.
  destruct (Entradas_nth _ _ _ _ Ht i numero Hn) as (q & e & Hq' & He & Hnth).
  simpl in Hq'. rewrite Hq in Hq'. injection Hq' as <-.
  unfold entrada_inscricao in He.
  destruct items as [|d ds]; [contradiction|].
  rewrite (processar_dicts_map _ Hd) in He. cbn [bind] in He.
  injection He as <-. exact Hnth.
Qed.

(** A payload with a record that is neither an object, nor a list, nor a
    string stops the run: the loop raises, so there is no list of
    entries, whatever the other queries answered. *)
Theorem scalar_record_aborts_run (inscricoes : list string) (i : nat)
  (numero : string) (data : json) :
  nth_error inscricoes i = Some numero ->
  consultar i numero = Return (Success data) ->
  existsb is_scalar (dados_retornados data) = true ->
  exists x, todos_resultados consultar inscricoes = Raise x.
Proof.
  intros Hn Hq Hs.
  destruct (todos_resultados consultar inscricoes) as [todos|x] eqn:Ht;
    [|exists x; reflexivity].
  exfalso. apply percorrer_Entradas in Ht.
  destruct (Entradas_nth _ _ _ _ Ht i numero Hn) as (q & e & Hq' & He & _).
  simpl in Hq'. rewrite Hq in Hq'. injection Hq' as <-.
  unfold entrada_inscricao in He. fold (dados_retornados data) in He.
  apply existsb_exists in Hs. destruct Hs as (r & Hin & Hr).
  destruct (dados_retornados data) as [|d ds]; [destruct Hin|].
  destruct (processar (d :: ds) []) as [s|x] eqn:Hp; [|discriminate].
  apply processar_Forall2 in Hp.
  destruct (Forall2_In_left _ _ _ Hp r Hin) as (r' & _ & Hnorm).
  rewrite (normalizar_scalar r Hr) in Hnorm. discriminate.
Qed.

(** In every entry of the list, every audit has the two list fields:
    the test [in] of the loop finds both names in it. *)
Theorem audits_have_both_fields (inscricoes : list string)
  (todos : list Entry) (e : Entry) (r : json) :
  todos_resultados consultar inscricoes = Return todos ->
  In e todos ->
  In r (auditorias e) ->
  py_in CampoPersonalizadoTermoBeneficioList r = Return true
  /\ py_in Auditorias r = Return true.
Proof.
  intros Ht He Hr. apply percorrer_Entradas in Ht.
  destruct (Entradas_In _ _ _ _ Ht e He) as (numero & q & Hent).
  apply entrada_inscricao_auditorias in Hent.
  rewrite Forall_forall in Hent.
  destruct (Hent r Hr) as (r0 & Hn).
  eapply normalizar_keys. exact Hn.
Qed.

(** In every entry of the list, an error message is present exactly when
    the status is [failed], and a raw text is present only then. *)
Theorem error_only_when_failed (inscricoes : list string)
  (todos : list Entry) (e : Entry) :
  todos_resultados consultar inscricoes = Return todos ->
  In e todos ->
  (status e = failed <-> error e <> None)
  /\ (raw_response e <> None -> status e = failed).
Proof.
  intros Ht He. apply percorrer_Entradas in Ht.
  destruct (Entradas_In _ _ _ _ Ht e He) as (numero & q & Hent).
  apply entrada_inscricao_error in Hent.
  destruct q as [data | err raw].
  - destruct Hent as (Hs & -> & ->). split; [|congruence].
    split; [contradiction | congruence].
  - destruct Hent as (-> & -> & _). split; [|reflexivity].
    split; [discriminate | reflexivity].
Qed.

End MoreAggregator.

Lemma failed_query_entry_witness :
  nth_error
    [mkEntry "105" failed []
       (Some "Timeout exceeded while querying registration 105.") None] 0
  = Some (mkEntry "105" failed []
            (Some "Timeout exceeded while querying registration 105.") None).
Proof.
  apply (failed_query_entry Sample.consultar ["105"] 0 "105"
           "Timeout exceeded while querying registration 105." None);
    reflexivity.
Defined.

Lemma list_payload_entry_witness :
  exists todos,
    todos_resultados Sample.consultar ["102"; "103"] = Return todos
    /\ nth_error todos 1
       = Some (mkEntry "103" success
                 (map normalizado [Sample.record_full; Sample.record_bare])
                 None None).
Proof.
  eexists. split; [reflexivity|].
  apply (list_payload_entry Sample.consultar ["102"; "103"] 1 "103"
           [Sample.record_full; Sample.record_bare]);
    try reflexivity.
  discriminate.
Defined.

Lemma scalar_record_aborts_run_witness :
  exists x,
    todos_resultados
      (fun i numero =>
         consultar_auditoria Sample.dumps
           (fun _ => GetReturns (Sample.r200 JNull)) numero)
      ["101"; "102"]
    = Raise x.
Proof.
  apply (scalar_record_aborts_run
           (fun i numero =>
              consultar_auditoria Sample.dumps
                (fun _ => GetReturns (Sample.r200 JNull)) numero)
           ["101"; "102"] 1 "102" JNull); reflexivity.
Defined.

Lemma audits_have_both_fields_witness :
  py_in CampoPersonalizadoTermoBeneficioList (normalizado Sample.record_bare)
  = Return true
  /\ py_in Auditorias (normalizado Sample.record_bare) = Return true.
Proof.
  apply (audits_have_both_fields Sample.consultar ["101"]
           [mkEntry "101" success [normalizado Sample.record_bare] None None]
           (mkEntry "101" success [normalizado Sample.record_bare] None None)).
  - reflexivity.
  - left. reflexivity.
  - left. reflexivity.
Defined.

Lemma error_only_when_failed_witness :
  (status (mkEntry "102" no_data_returned [] None None) = failed
   <-> error (mkEntry "102" no_data_returned [] None None) <> None)
  /\ (raw_response (mkEntry "102" no_data_returned [] None None) <> None ->
      status (mkEntry "102" no_data_returned [] None None) = failed).
Proof.
  apply (error_only_when_failed Sample.consultar ["102"]
           [mkEntry "102" no_data_returned [] None None]).
  - reflexivity.
  - left. reflexivity.
Defined.

(** ** The run as a whole *)

Section MoreRun.

Variable consultar : nat -> string -> Result QueryResult.

Lemma percorrer_append (i : nat) (a b : list string) (acc : list Entry) :
  percorrer consultar i (a ++ b)%list acc
  = (da <- percorrer consultar i a acc ;;
     percorrer consultar (i + length a) b da).
Proof.
  revert i acc. induction a as [|numero rest IH]; intros i acc.
  - simpl. rewrite Nat.add_0_r. reflexivity.
  - simpl. destruct (consultar i numero) as [q|x]; [|reflexivity].
    cbn [bind]. destruct (entrada_inscricao numero q) as [e|x]; [|reflexivity].
    cbn [bind]. rewrite IH. rewrite Nat.add_succ_r. reflexivity.
Qed.

(** The run over a list followed by another is the run over the first,
    followed by the run over the second with the iterations counted on;
    the entries of the first list are those of its own run, unchanged,
    and the entries of the second come after them. *)
Theorem todos_resultados_app (a b : list string) :
  todos_resultados consultar (a ++ b)%list
  = (da <- todos_resultados consultar a ;;
     db <- percorrer consultar (length a) b [] ;;
     Return (da ++ db)%list).
Proof.
  unfold todos_resultados. rewrite percorrer_append. simpl.
  destruct (percorrer consultar 0 a []) as [da|x]; [|reflexivity].
  cbn [bind]. apply percorrer_app.
Qed.

End MoreRun.

(** The entry of a registration number depends on the answer to its own
    query only: two runs over the same list whose query functions agree
    on one iteration have the same entry at that place, whatever the
    other queries answered. *)
Theorem entry_depends_on_own_query
  (consultar consultar' : nat -> string -> Result QueryResult)
  (inscricoes : list string) (i : nat) (numero : string)
  (todos todos' : list Entry) :
  nth_error inscricoes i = Some numero ->
  consultar i numero = consultar' i numero ->
  todos_resultados consultar inscricoes = Return todos ->
  todos_resultados consultar' inscricoes = Return todos' ->
  nth_error todos i = nth_error todos' i.
Proof.
  intros Hn Hq Ht Ht'.
  apply percorrer_Entradas in Ht. apply percorrer_Entradas in Ht'.
  destruct (Entradas_nth _ _ _ _ Ht i numero Hn) as (q & e & Hq1 & He & ->).
  destruct (Entradas_nth _ _ _ _ Ht' i numero Hn)
    as (q' & e' & Hq2 & He' & ->).
  simpl in Hq1, Hq2. congruence.
Qed.

Lemma entry_depends_on_own_query_witness :
  exists todos todos',
    todos_resultados Sample.consultar ["101"; "104"] = Return todos
    /\ todos_resultados
         (fun i numero =>
            if (i =? 0)%nat then Sample.consultar i numero
            else Return (Success (JList [])))
         ["101"; "104"] = Return todos'
    /\ nth_error todos 0 = nth_error todos' 0
    /\ nth_error todos 1 <> nth_error todos' 1.
Proof.
  eexists. eexists. split; [reflexivity|]. split; [reflexivity|]. split.
  - apply (entry_depends_on_own_query Sample.consultar
             (fun i numero =>
                if (i =? 0)%nat then Sample.consultar i numero
                else Return (Success (JList [])))
             ["101"; "104"] 0 "101"); reflexivity.
  - discriminate.
Defined.

(** When the function returns, the output file is absent exactly when
    the list of registration numbers is empty; a file that is written
    holds one entry per number, in the order of the list, and is
    complete. *)
Theorem file_written_iff_nonempty (dumps : json -> string)
  (disco : list Entry -> Escrita)
  (rede : nat -> string -> Attempt) (inscricoes : list string)
  (escrito : option (list Entry)) :
  consultar_varias_inscricoes dumps disco rede inscricoes = Return escrito ->
  (escrito = None <-> inscricoes = [])
  /\ (forall todos, escrito = Some todos ->
                    map numero_inscricao_consultado todos = inscricoes)
  /\ arquivo_depois dumps disco rede inscricoes
     = match escrito with
       | None => Intocado
       | Some todos => Completo todos
       end.
Proof.
  unfold consultar_varias_inscricoes, arquivo_depois. intros H.
  destruct (todos_resultados
              (fun i numero => consultar_auditoria dumps (rede i) numero)
              inscricoes) as [todos|x] eqn:Ht; [|discriminate].
  cbn [bind] in H.
  apply percorrer_Entradas in Ht.
  pose proof (Entradas_numeros _ _ _ _ Ht) as Hnum.
  destruct todos as [|e todos]; cbn [arquivo] in *.
  - injection H as <-. simpl in Hnum. subst inscricoes.
    split; [tauto|]. split; [discriminate | reflexivity].
  - destruct (disco (e :: todos)); try discriminate H.
    injection H as <-. split; [|split].
    + split; [discriminate|]. intros ->. discriminate Hnum.
    + intros t H. injection H as <-. exact Hnum.
    + reflexivity.
Qed.

Lemma file_written_iff_nonempty_witness :
  exists escrito,
    consultar_varias_inscricoes Sample.dumps Sample.disco Sample.rede
      ["102"; "105"]
    = Return escrito
    /\ (escrito = None <-> ["102"; "105"] = @nil string)
    /\ (forall todos, escrito = Some todos ->
                      map numero_inscricao_consultado todos = ["102"; "105"])
    /\ arquivo_depois Sample.dumps Sample.disco Sample.rede ["102"; "105"]
       = match escrito with
         | None => Intocado
         | Some todos => Completo todos
         end.
Proof.
  eexists. split; [reflexivity|].
  apply (file_written_iff_nonempty Sample.dumps Sample.disco Sample.rede
           ["102"; "105"]).
  reflexivity.
Defined.






(** ** The program *)



(** The output file of the program.  A complete file comes without the
    critical-error block, is not empty, and holds one entry per
    registration number that the reader returned, in order.  A truncated
    file comes with the critical-error block, and only from [json.dump]
    raising part-way.  When the write cannot fail, a critical error
    leaves no file at all: the write comes after the loop, so a failure
    of the reader or an exception of the loop loses the entries built
    before it. *)
Theorem main_output_file (read_excel : ReadExcel)
  (dumps : json -> string) (disco : list Entry -> Escrita)
  (rede : nat -> string -> Attempt) :
  (forall todos,
      arquivo_saida (main read_excel dumps disco rede) = Completo todos ->
      erro_critico (main read_excel dumps disco rede) = false
      /\ todos <> []
      /\ disco todos = Escreve
      /\ ler_inscricoes_xls_completo CAMINHO_XLS read_excel
           NOME_COLUNA_INSCRICOES
         = inr (map numero_inscricao_consultado todos))
  /\ (arquivo_saida (main read_excel dumps disco rede) = Truncado ->
      erro_critico (main read_excel dumps disco rede) = true
      /\ exists todos e, disco todos = DumpRaises e)
  /\ ((forall todos, disco todos = Escreve) ->
      erro_critico (main read_excel dumps disco rede) = true ->
      arquivo_saida (main read_excel dumps disco rede) = Intocado).
Proof.
  unfold main.
  destruct (ler_inscricoes_xls_completo CAMINHO_XLS read_excel
              NOME_COLUNA_INSCRICOES) as [x | lidas];
    cbn [erro_critico arquivo_saida].
  - split; [discriminate|]. split; [discriminate | reflexivity].
  - unfold arquivo_depois, consultar_varias_inscricoes.
    destruct (todos_resultados
                (fun i numero => consultar_auditoria dumps (rede i) numero)
                lidas) as [todos|x] eqn:Ht; cbn [bind].
    + apply percorrer_Entradas in Ht.
      pose proof (Entradas_numeros _ _ _ _ Ht) as Hnum.
      destruct todos as [|e0 todos]; cbn [arquivo].
      * split; [discriminate|]. split; discriminate.
      * destruct (disco (e0 :: todos)) as [e | e |] eqn:Hd.
        -- split; [discriminate|]. split; [discriminate | reflexivity].
        -- split; [discriminate|]. split.
           ++ intros _. split; [reflexivity|]. eauto.
           ++ intros Hall. rewrite Hall in Hd. discriminate Hd.
        -- split; [|split; discriminate].
           intros t Ht'. injection Ht' as <-.
           split; [reflexivity|]. split; [discriminate|].
           split; [exact Hd|]. rewrite Hnum. reflexivity.
    + split; [discriminate|]. split; [discriminate | reflexivity].
Qed.

Lemma main_output_file_witness :
  arquivo_saida
    (main (ReadReturns Sample.df) Sample.dumps Sample.disco_cheio Sample.rede)
  = Truncado
  /\ erro_critico
       (main (ReadReturns Sample.df) Sample.dumps Sample.disco_cheio
          Sample.rede) = true
  /\ exists todos e, Sample.disco_cheio todos = DumpRaises e.
Proof.
  split; [reflexivity|].
  apply (proj1 (proj2 (main_output_file (ReadReturns Sample.df) Sample.dumps
                         Sample.disco_cheio Sample.rede))).
  reflexivity.
Defined.
